(** * Candidate scoring and top-K selection of the protein-engineering labs

    A shallow embedding of the two notebooks
    - Lab 2: [cosine_distance] over mean-pooled AMPLIFY embeddings, then
      [df.sort_values(by='distance')], [df.head(5)] and the FASTA records;
    - Lab 3: alpha-carbon extraction, truncation, [struct.rmsd] and
      [struct.superimpose], then [df.sort_values(by='rmsd')], [df.head(3)].

    The notebooks are glue code over numpy, scipy, biotite and pandas.  The
    library calls are embedded by what they compute:
    - a float64 value is a finite number, an infinity or NaN.  NaN and the
      infinities propagate as IEEE 754 has them, so that the places where
      numpy answers NaN instead of raising are visible.  Arithmetic on
      finite numbers is written on the reals: rounding, overflow,
      underflow and signed zeros are left out, and biotite's float32 is
      not told from float64.  The theorems therefore state only what
      rounding does not change: which results are NaN, that a clipped
      result lies within its bounds, the order of the scores that are
      stored, and the structure of each computation.  None of them
      states the digits of a finite result, or how two computed results
      compare;
    - a Python exception is the [Raise] branch of [pyresult];
    - [DataFrame.sort_values] with its default [kind='quicksort'] is a
      relation: any ascending arrangement of the rows, missing values last;
    - the rotation that [struct.superimpose] takes from numpy's singular
      value decomposition is a parameter of the scorer. *)

From Stdlib Require Import String.
From Stdlib Require Import Reals Lra Lia ZArith Bool Arith List.
From Stdlib Require Import Permutation Sorted.
Import ListNotations.

Local Open Scope R_scope.

(** ** Python results *)

Inductive exn : Type :=
| ValueError   (* numpy: operands could not be aligned / broadcast *)
| TypeError    (* subscripting None *)
| KeyError.    (* pandas: a column label that is not there *)

Inductive pyresult (A : Type) : Type :=
| Ok (a : A)
| Raise (e : exn).
Arguments Ok {A} a.
Arguments Raise {A} e.

Definition bind {A B : Type} (m : pyresult A) (k : A -> pyresult B) : pyresult B :=
  match m with
  | Ok a => k a
  | Raise e => Raise e
  end.

Notation "x <- m ;; k" := (bind m (fun x => k))
  (at level 61, m at next level, right associativity).

(** ** numpy *)

Module np.

(** A float64 value: a finite number, an infinity with its sign, or NaN. *)
Inductive float64 : Type :=
| Fin (x : R)
| Inf (negative : bool)
| NaN.

Definition is_negative (x : R) : bool := if Rlt_dec x 0 then true else false.

Definition isnan (a : float64) : bool :=
  match a with NaN => true | _ => false end.

Definition add (a b : float64) : float64 :=
  match a, b with
  | NaN, _ | _, NaN => NaN
  | Inf s, Inf t => if Bool.eqb s t then Inf s else NaN
  | Inf s, Fin _ | Fin _, Inf s => Inf s
  | Fin x, Fin y => Fin (x + y)
  end.

Definition neg (a : float64) : float64 :=
  match a with
  | Fin x => Fin (- x)
  | Inf s => Inf (negb s)
  | NaN => NaN
  end.

Definition sub (a b : float64) : float64 := add a (neg b).

Definition mul (a b : float64) : float64 :=
  match a, b with
  | NaN, _ | _, NaN => NaN
  | Inf s, Inf t => Inf (xorb s t)
  | Inf s, Fin x | Fin x, Inf s =>
      if Req_EM_T x 0 then NaN else Inf (xorb s (is_negative x))
  | Fin x, Fin y => Fin (x * y)
  end.

(** Division of numpy scalars never raises: [0/0] is NaN and [x/0] an
    infinity, each with a RuntimeWarning only. *)
Definition div (a b : float64) : float64 :=
  match a, b with
  | NaN, _ | _, NaN => NaN
  | Inf _, Inf _ => NaN
  | Inf s, Fin y => Inf (xorb s (is_negative y))
  | Fin _, Inf _ => Fin 0
  | Fin x, Fin y =>
      if Req_EM_T y 0
      then (if Req_EM_T x 0 then NaN else Inf (is_negative x))
      else Fin (x / y)
  end.

Definition sqrt (a : float64) : float64 :=
  match a with
  | NaN => NaN
  | Inf s => if s then NaN else Inf false
  | Fin x => if Rlt_dec x 0 then NaN else Fin (R_sqrt.sqrt x)
  end.

(** [np.clip(a, lo, hi)]: NaN stays NaN. *)
Definition clip (a : float64) (lo hi : R) : float64 :=
  match a with
  | NaN => NaN
  | Inf s => if s then Fin lo else Fin hi
  | Fin x => Fin (Rmin (Rmax x lo) hi)
  end.

Definition sum (l : list float64) : float64 := fold_right add (Fin 0) l.

(** [mean] of a 1-d run of values: the sum over the count; over no value at
    all this is [0/0], NaN. *)
Definition mean (l : list float64) : float64 :=
  div (sum l) (Fin (INR (length l))).

Fixpoint dot (u v : list float64) : float64 :=
  match u, v with
  | a :: u', b :: v' => add (mul a b) (dot u' v')
  | _, _ => Fin 0
  end.

(** Arrays of rank 3 and 2: the shape and the element at each index. *)
Record ndarray3 : Type := mk_ndarray3 {
  shape0 : nat;
  shape1 : nat;
  shape2 : nat;
  item3 : nat -> nat -> nat -> float64
}.

Record ndarray2 : Type := mk_ndarray2 {
  nrows : nat;
  ncols : nat;
  item2 : nat -> nat -> float64
}.

(** A slice bound [i] on an axis of length [n], as Python normalises it for
    step 1: a negative bound counts from the end, and both are clamped. *)
Definition slice_bound (i : Z) (n : nat) : nat :=
  if (i <? 0)%Z
  then Z.to_nat (Z.max 0 (i + Z.of_nat n))
  else Nat.min (Z.to_nat i) n.

(** [a[:, start:stop, :]] *)
Definition slice_axis1 (a : ndarray3) (start stop : Z) : ndarray3 :=
  let lo := slice_bound start (shape1 a) in
  let hi := slice_bound stop (shape1 a) in
  {| shape0 := shape0 a;
     shape1 := (hi - lo)%nat;
     shape2 := shape2 a;
     item3 := fun b i j => item3 a b (lo + i)%nat j |}.

(** [a.mean(axis=1)] *)
Definition mean_axis1 (a : ndarray3) : ndarray2 :=
  {| nrows := shape0 a;
     ncols := shape2 a;
     item2 := fun b j => mean (map (fun i => item3 a b i j) (seq 0 (shape1 a))) |}.

(** [a.ravel()], row-major. *)
Definition ravel2 (a : ndarray2) : list float64 :=
  flat_map (fun b => map (fun j => item2 a b j) (seq 0 (ncols a)))
           (seq 0 (nrows a)).

Definition ravel3 (a : ndarray3) : list float64 :=
  flat_map (fun b =>
    flat_map (fun i => map (fun j => item3 a b i j) (seq 0 (shape2 a)))
             (seq 0 (shape1 a)))
    (seq 0 (shape0 a)).

(** An array from nested lists, of the given hidden dimension. *)
Definition array3 (hidden : nat) (l : list (list (list R))) : ndarray3 :=
  {| shape0 := length l;
     shape1 := length (nth 0 l []);
     shape2 := hidden;
     item3 := fun b i j => Fin (nth j (nth i (nth b l []) []) 0) |}.

End np.

(** ** scipy.spatial.distance *)

Module distance.

(** [distance.cosine(u, v)] is [correlation(u, v, centered=False)]:
<<
    uv = np.dot(u, v); uu = np.dot(u, u); vv = np.dot(v, v)
    dist = 1.0 - uv / math.sqrt(uu * vv)
    return np.clip(dist, 0.0, 2.0)
>>
    [np.dot] raises ValueError on vectors of different lengths. *)
Definition cosine (u v : list np.float64) : pyresult np.float64 :=
  if Nat.eqb (length u) (length v)
  then
    let uv := np.dot u v in
    let uu := np.dot u u in
    let vv := np.dot v v in
    let dist := np.sub (np.Fin 1) (np.div uv (np.sqrt (np.mul uu vv))) in
    Ok (np.clip dist 0 2)
  else Raise ValueError.

End distance.

(** ** pandas *)

Module pd.

(** A cell of the score column. *)
Inductive cell : Type :=
| CFloat (x : np.float64)
| CNone.

(** The score column of [pd.DataFrame(list_of_dicts)]: when every dict holds
    None the column keeps dtype object and the None values; otherwise it
    becomes float64 and each None is stored as NaN. *)
Definition is_None {A : Type} (o : option A) : bool :=
  match o with None => true | Some _ => false end.

Definition score_column (l : list (option np.float64)) : list cell :=
  if forallb is_None l
  then map (fun _ => CNone) l
  else map (fun o => match o with Some x => CFloat x | None => CFloat np.NaN end) l.

(** Cell [c] stores the dict value [o]: the number itself, or a missing
    value for None. *)
Definition cell_of (o : option np.float64) (c : cell) : Prop :=
  match o with
  | Some x => c = CFloat x
  | None => c = CNone \/ c = CFloat np.NaN
  end.

(** A row after [set_index('prompt_id')]: the index label and the columns
    the selection reads.  [score] is the column named by [by]
    ('distance' in Lab 2, 'rmsd' in Lab 3). *)
Record Row : Type := mk_Row {
  prompt_id : string;
  sequence : string;
  description : string;
  score : cell
}.

Definition DataFrame : Type := list Row.

(** [pd.DataFrame(dicts)] then [df.set_index('prompt_id', inplace=True)].
    A frame built from an empty list has no column at all, and [set_index]
    raises KeyError on the missing label. *)
Definition set_index_prompt_id (rows : list Row) : pyresult DataFrame :=
  match rows with
  | [] => Raise KeyError
  | _ :: _ => Ok rows
  end.

Definition isna (c : cell) : bool :=
  match c with
  | CNone | CFloat np.NaN => true
  | CFloat _ => false
  end.

Definition row_isna (r : Row) : bool := isna (score r).
Definition row_notna (r : Row) : bool := negb (isna (score r)).

(** The order of float64 values that are not NaN. *)
Definition float_le (a b : np.float64) : Prop :=
  match a, b with
  | np.NaN, _ | _, np.NaN => False
  | np.Inf true, _ => True
  | _, np.Inf false => True
  | np.Fin x, np.Fin y => x <= y
  | _, _ => False
  end.

Definition key_le (r1 r2 : Row) : Prop :=
  match score r1, score r2 with
  | CFloat a, CFloat b => float_le a b
  | _, _ => False
  end.

(** [df.sort_values(by=..., ascending=True)] with the defaults
    [kind='quicksort'] and [na_position='last']: the rows whose key is not
    missing are arranged in ascending key order by a sort that is not
    promised to be stable, and the rows whose key is missing follow in
    their original order. *)
Inductive sort_values (df : DataFrame) : DataFrame -> Prop :=
| sort_values_intro (s : list Row) :
    Permutation s (filter row_notna df) ->
    Sorted key_le s ->
    sort_values df (s ++ filter row_isna df).

(** [df.head(n)] for a count [n >= 0]. *)
Definition head (n : nat) (df : DataFrame) : DataFrame := firstn n df.

(** One valid outcome of [sort_values]: the insertion sort that keeps
    equal keys in their original order. *)
Definition float_leb (a b : np.float64) : bool :=
  match a, b with
  | np.NaN, _ | _, np.NaN => false
  | np.Inf true, _ => true
  | _, np.Inf false => true
  | np.Fin x, np.Fin y => if Rle_dec x y then true else false
  | _, _ => false
  end.

Definition key_leb (r1 r2 : Row) : bool :=
  match score r1, score r2 with
  | CFloat a, CFloat b => float_leb a b
  | _, _ => false
  end.

Fixpoint insert (r : Row) (l : list Row) : list Row :=
  match l with
  | [] => [r]
  | x :: l' => if key_leb r x then r :: l else x :: insert r l'
  end.

Definition stable_sort (df : DataFrame) : DataFrame :=
  fold_right insert [] (filter row_notna df) ++ filter row_isna df.

(** Two cells hold the same score. *)
Definition float_eqb (a b : np.float64) : bool :=
  match a, b with
  | np.Fin x, np.Fin y => if Req_EM_T x y then true else false
  | np.Inf s, np.Inf t => Bool.eqb s t
  | np.NaN, np.NaN => true
  | _, _ => false
  end.

Definition cell_eqb (c d : cell) : bool :=
  match c, d with
  | CFloat a, CFloat b => float_eqb a b
  | CNone, CNone => true
  | _, _ => false
  end.

(** The rows of a frame that carry the score [c], in the frame's order. *)
Definition with_score (c : cell) (df : DataFrame) : DataFrame :=
  filter (fun r => cell_eqb c (score r)) df.

End pd.

(** ** Biopython *)

Module Bio.

Record SeqRecord : Type := mk_SeqRecord {
  seq : string;
  id : string;
  description : string
}.

End Bio.

(** ** biotite.structure *)

Module biotite.

Definition vec3 : Type := (np.float64 * np.float64 * np.float64)%type.
Definition mat3 : Type := (vec3 * vec3 * vec3)%type.

Record Atom : Type := mk_Atom {
  atom_name : string;
  res_id : Z;
  coord : vec3
}.

Definition AtomArray : Type := list Atom.

Definition nan3 : vec3 := (np.NaN, np.NaN, np.NaN).

(** [array[array.atom_name == name]] *)
Definition with_atom_name (name : string) (array : AtomArray) : AtomArray :=
  filter (fun a => String.eqb (atom_name a) name) array.

Definition vadd (p q : vec3) : vec3 :=
  let '(x, y, z) := p in let '(x', y', z') := q in
  (np.add x x', np.add y y', np.add z z').

Definition vneg (p : vec3) : vec3 :=
  let '(x, y, z) := p in (np.neg x, np.neg y, np.neg z).

Definition vdot (p q : vec3) : np.float64 :=
  let '(x, y, z) := p in let '(x', y', z') := q in
  np.add (np.add (np.mul x x') (np.mul y y')) (np.mul z z').

Definition mat_vec (m : mat3) (p : vec3) : vec3 :=
  let '(r1, r2, r3) := m in (vdot r1 p, vdot r2 p, vdot r3 p).

Definition sq_euclidian (p q : vec3) : np.float64 :=
  let d := vadd p (vneg q) in vdot d d.

(** [struct.rmsd(reference, subject)]:
    [np.sqrt(np.mean(sq_euclidian(reference, subject), axis=-1))].
    The difference of coordinate arrays of different lengths raises
    ValueError (numpy would broadcast a single atom; the notebook always
    passes two arrays of one length). *)
Definition rmsd (reference subject : AtomArray) : pyresult np.float64 :=
  if Nat.eqb (length reference) (length subject)
  then Ok (np.sqrt (np.mean
         (map (fun rs => sq_euclidian (coord (fst rs)) (coord (snd rs)))
              (combine reference subject))))
  else Raise ValueError.

(** [struct.centroid]: the mean of each coordinate. *)
Definition centroid (a : AtomArray) : vec3 :=
  (np.mean (map (fun x => fst (fst (coord x))) a),
   np.mean (map (fun x => snd (fst (coord x))) a),
   np.mean (map (fun x => snd (coord x)) a)).

Record AffineTransformation : Type := mk_AffineTransformation {
  center_translation : vec3;
  rotation : mat3;
  target_translation : vec3
}.

(** [transform.apply(atoms)] *)
Definition apply (t : AffineTransformation) (atoms : AtomArray) : AtomArray :=
  map (fun a =>
         {| atom_name := atom_name a;
            res_id := res_id a;
            coord := vadd (mat_vec (rotation t)
                                   (vadd (coord a) (center_translation t)))
                          (target_translation t) |})
      atoms.

Definition translate (v : vec3) (atoms : AtomArray) : list vec3 :=
  map (fun a => vadd (coord a) v) atoms.

(** [struct.superimpose(fixed, mobile)]: both sets are centred, the
    rotation comes from the singular value decomposition of their
    covariance matrix, and the transformation moves [mobile] onto
    [fixed].  The decomposition is numpy's LAPACK call; it is the
    argument [svd_rotation] here, a total function: the call converges
    on the covariance of finite coordinates, and on the zero matrix that
    two empty sets give. *)
Definition superimpose (svd_rotation : list vec3 -> list vec3 -> mat3)
    (fixed mobile : AtomArray) : pyresult (AtomArray * AffineTransformation) :=
  if Nat.eqb (length fixed) (length mobile)
  then
    let mob_centroid := centroid mobile in
    let fix_centroid := centroid fixed in
    let rot := svd_rotation (translate (vneg fix_centroid) fixed)
                            (translate (vneg mob_centroid) mobile) in
    let transform := {| center_translation := vneg mob_centroid;
                        rotation := rot;
                        target_translation := fix_centroid |} in
    Ok (apply transform mobile, transform)
  else Raise ValueError.

End biotite.

(** ** Selection of the top candidates (Lab 2 steps 3.2-3.3, Lab 3 steps 4.4-4.5) *)

Module Selection.

(** The frame, its sorted version bound to [df] again, and [df.head(k)]:
    the outcome is the sorted frame with its first [k] rows, or the
    exception of [set_index]. *)
Inductive select_top_k (k : nat) (rows : list pd.Row)
  : pyresult (pd.DataFrame * pd.DataFrame) -> Prop :=
| select_raise (e : exn) :
    pd.set_index_prompt_id rows = Raise e ->
    select_top_k k rows (Raise e)
| select_ok (df sorted : pd.DataFrame) :
    pd.set_index_prompt_id rows = Ok df ->
    pd.sort_values df sorted ->
    select_top_k k rows (Ok (sorted, pd.head k sorted)).

(** Row [a] comes before row [b] in [l]. *)
Definition precedes (a b : pd.Row) (l : list pd.Row) : Prop :=
  exists l1 l2 l3, l = l1 ++ a :: l2 ++ b :: l3.

(** Ascending order of the whole frame: a missing key is last. *)
Definition ascending (r1 r2 : pd.Row) : Prop :=
  pd.row_isna r2 = true \/ pd.key_le r1 r2.

Section Format.

(** The text an f-string prints for a float64 score.  A cell that holds
    None (a column in which no dict has a score) prints as None; pandas 3
    prints nan instead when the row holds strings and None only. *)
Variable repr_float : np.float64 -> string.

Definition format_cell (c : pd.cell) : string :=
  match c with
  | pd.CFloat x => repr_float x
  | pd.CNone => "None"
  end.

(** [SeqRecord(Seq(row.sequence), id=prompt_id,
               description=f'{row.description},<label>={row.<label>}')] *)
Definition record_of (label : string) (row : pd.Row) : Bio.SeqRecord :=
  {| Bio.seq := pd.sequence row;
     Bio.id := pd.prompt_id row;
     Bio.description :=
       (pd.description row ++ "," ++ label ++ "=" ++ format_cell (pd.score row))%string |}.

(** The loop over [df.head(k).iterrows()] that fills [records]. *)
Definition records_of (label : string) (top : pd.DataFrame) : list Bio.SeqRecord :=
  map (record_of label) top.

End Format.

End Selection.

(** ** Lab 2 *)

Module Lab2.

Record GenSeq : Type := mk_GenSeq {
  prompt_id : string;
  sequence : string;
  description : string;
  embeddings : option np.ndarray3;
  distance : option np.float64;
  distance_type : option string
}.

(** Step 3.1 *)
Definition cosine_distance (embeddings1 embeddings2 : np.ndarray3)
    (mean_pooling : bool) : pyresult np.float64 :=
  if mean_pooling
  then
    let embeddings1 := np.mean_axis1 (np.slice_axis1 embeddings1 1 (-1)) in
    let embeddings2 := np.mean_axis1 (np.slice_axis1 embeddings2 1 (-1)) in
    distance.cosine (np.ravel2 embeddings1) (np.ravel2 embeddings2)
  else
    distance.cosine (np.ravel3 embeddings1) (np.ravel3 embeddings2).

(** The two vectors that reach [distance.cosine]. *)
Definition pooled (e : np.ndarray3) : list np.float64 :=
  np.ravel2 (np.mean_axis1 (np.slice_axis1 e 1 (-1))).

Definition flattened (mean_pooling : bool) (e : np.ndarray3) : list np.float64 :=
  if mean_pooling then pooled e else np.ravel3 e.

(** The body of the scoring loop: [gen_seq['distance']] and
    [gen_seq['distance_type']] are assigned in place. *)
Definition score_gen_seq (ref_embeddings : np.ndarray3) (gen_seq : GenSeq)
  : pyresult GenSeq :=
  match embeddings gen_seq with
  | None => Raise TypeError
  | Some e =>
      d <- cosine_distance e ref_embeddings true ;;
      Ok {| prompt_id := prompt_id gen_seq;
            sequence := sequence gen_seq;
            description := description gen_seq;
            embeddings := embeddings gen_seq;
            distance := Some d;
            distance_type := Some "cosine"%string |}
  end.

(** The loop mutates the dicts of the list one after the other; an
    exception leaves the dicts already scored as they are and the others
    untouched. *)
Fixpoint score_gen_sequences (ref_embeddings : np.ndarray3)
    (gen_sequences : list GenSeq) : list GenSeq * option exn :=
  match gen_sequences with
  | [] => ([], None)
  | gen_seq :: rest =>
      match score_gen_seq ref_embeddings gen_seq with
      | Raise e => (gen_seq :: rest, Some e)
      | Ok gen_seq' =>
          let '(rest', r) := score_gen_sequences ref_embeddings rest in
          (gen_seq' :: rest', r)
      end
  end.

(** Step 3.2: the rows of [pd.DataFrame(gen_sequences)]. *)
Definition rows_of (gen_sequences : list GenSeq) : list pd.Row :=
  map (fun gc => {| pd.prompt_id := prompt_id (fst gc);
                    pd.sequence := sequence (fst gc);
                    pd.description := description (fst gc);
                    pd.score := snd gc |})
      (combine gen_sequences (pd.score_column (map distance gen_sequences))).

(** The notebook's globals that steps 3.2 and 3.3 read and write. *)
Record Notebook : Type := mk_Notebook {
  gen_sequences : list GenSeq;
  df : pd.DataFrame;
  records : list Bio.SeqRecord
}.

(** Steps 3.2 and 3.3 as one transition of the globals. *)
Inductive select_step (repr_float : np.float64 -> string) (nb : Notebook)
  : pyresult Notebook -> Prop :=
| select_step_raise (e : exn) :
    Selection.select_top_k 5 (rows_of (gen_sequences nb)) (Raise e) ->
    select_step repr_float nb (Raise e)
| select_step_ok (sorted top : pd.DataFrame) :
    Selection.select_top_k 5 (rows_of (gen_sequences nb)) (Ok (sorted, top)) ->
    select_step repr_float nb
      (Ok {| gen_sequences := gen_sequences nb;
             df := sorted;
             records := Selection.records_of repr_float "distance" top |}).

End Lab2.

(** ** Lab 3 *)

Module Lab3.

Record Structure : Type := mk_Structure {
  run_id : string;
  prompt_id : string;
  sequence : string;
  description : string;
  transform : option biotite.AffineTransformation;
  rmsd : option np.float64
}.

Definition set_transform (s : Structure) (t : biotite.AffineTransformation) : Structure :=
  {| run_id := run_id s; prompt_id := prompt_id s; sequence := sequence s;
     description := description s; transform := Some t; rmsd := rmsd s |}.

Definition set_rmsd (s : Structure) (x : np.float64) : Structure :=
  {| run_id := run_id s; prompt_id := prompt_id s; sequence := sequence s;
     description := description s; transform := transform s; rmsd := Some x |}.

(** What one turn of the loop prints. *)
Record Printed : Type := mk_Printed {
  min_len : nat;
  rmsd_before : np.float64;
  rmsd_after : np.float64
}.

(** The alpha-carbon subsets after truncation, as the loop body computes
    them before it calls [struct.rmsd] and [struct.superimpose]. *)
Definition ca_atoms (ref_structure gen_structure : biotite.AtomArray)
  : biotite.AtomArray * biotite.AtomArray :=
  let ref_ca := biotite.with_atom_name "CA" ref_structure in
  let gen_ca := biotite.with_atom_name "CA" gen_structure in
  let min_len := Nat.min (length ref_ca) (length gen_ca) in
  (firstn min_len ref_ca, firstn min_len gen_ca).

Section Loop.

(** The rotation that numpy's decomposition finds, and the structure that
    [pdb.PDBFile.read] loads for a run. *)
Variable svd_rotation : list biotite.vec3 -> list biotite.vec3 -> biotite.mat3.
Variable prediction : string -> biotite.AtomArray.

(** The body of the loop of step 4.3 on the dict [s], which it mutates:
    the dict as the turn leaves it, and what the turn printed or raised. *)
Definition score_structure (ref_structure gen_structure : biotite.AtomArray)
    (s : Structure) : Structure * pyresult Printed :=
  let ref_ca := biotite.with_atom_name "CA" ref_structure in
  let gen_ca := biotite.with_atom_name "CA" gen_structure in
  let min_len := Nat.min (length ref_ca) (length gen_ca) in
  let ref_ca := firstn min_len ref_ca in
  let gen_ca := firstn min_len gen_ca in
  match biotite.rmsd ref_ca gen_ca with
  | Raise e => (s, Raise e)
  | Ok rmsd_before =>
      match biotite.superimpose svd_rotation ref_ca gen_ca with
      | Raise e => (s, Raise e)
      | Ok (gen_ca_fit, transform) =>
          let s := set_transform s transform in
          match biotite.rmsd ref_ca gen_ca_fit with
          | Raise e => (s, Raise e)
          | Ok rmsd_after =>
              (set_rmsd s rmsd_after,
               Ok {| min_len := min_len;
                     rmsd_before := rmsd_before;
                     rmsd_after := rmsd_after |})
          end
      end
  end.

(** The loop over [structures]. *)
Fixpoint score_structures (ref_structure : biotite.AtomArray)
    (structures : list Structure) : list Structure * pyresult (list Printed) :=
  match structures with
  | [] => ([], Ok [])
  | s :: rest =>
      match score_structure ref_structure (prediction (run_id s)) s with
      | (s', Raise e) => (s' :: rest, Raise e)
      | (s', Ok p) =>
          let '(rest', r) := score_structures ref_structure rest in
          (s' :: rest', ps <- r ;; Ok (p :: ps))
      end
  end.

End Loop.

(** Step 4.4: the rows of [pd.DataFrame(structures)]. *)
Definition rows_of (structures : list Structure) : list pd.Row :=
  map (fun sc => {| pd.prompt_id := prompt_id (fst sc);
                    pd.sequence := sequence (fst sc);
                    pd.description := description (fst sc);
                    pd.score := snd sc |})
      (combine structures (pd.score_column (map rmsd structures))).

Record Notebook : Type := mk_Notebook {
  structures : list Structure;
  df : pd.DataFrame;
  records : list Bio.SeqRecord
}.

(** Steps 4.4 and 4.5 as one transition of the globals. *)
Inductive select_step (repr_float : np.float64 -> string) (nb : Notebook)
  : pyresult Notebook -> Prop :=
| select_step_raise (e : exn) :
    Selection.select_top_k 3 (rows_of (structures nb)) (Raise e) ->
    select_step repr_float nb (Raise e)
| select_step_ok (sorted top : pd.DataFrame) :
    Selection.select_top_k 3 (rows_of (structures nb)) (Ok (sorted, top)) ->
    select_step repr_float nb
      (Ok {| structures := structures nb;
             df := sorted;
             records := Selection.records_of repr_float "rmsd" top |}).

End Lab3.

(** A value that is zero or NaN. *)
Definition zero_or_nan (a : np.float64) : Prop := a = np.Fin 0 \/ a = np.NaN.

(** Every entry of [e] that [cosine_distance] reads is zero: all of them,
    or with mean pooling those between the first and the last position. *)
Definition zero_entries (mean_pooling : bool) (e : np.ndarray3) : Prop :=
  forall b i j,
    (b < np.shape0 e)%nat -> (i < np.shape1 e)%nat -> (j < np.shape2 e)%nat ->
    (mean_pooling = true -> (0 < i < np.shape1 e - 1)%nat) ->
    np.item3 e b i j = np.Fin 0.

(** The order of a subsequence: [l1] is [l2] with some elements dropped. *)
Inductive subsequence {A : Type} : list A -> list A -> Prop :=
| subseq_nil : subsequence [] []
| subseq_keep (x : A) (l1 l2 : list A) :
    subsequence l1 l2 -> subsequence (x :: l1) (x :: l2)
| subseq_drop (x : A) (l1 l2 : list A) :
    subsequence l1 l2 -> subsequence l1 (x :: l2).

(** ** What a turn of the scoring loops leaves in a dict *)

Module Loops.

(** [g'] is the dict [g] after the turn of step 3.1 (Lab 2) scored it
    against [ref_embeddings]. *)
Definition scored (ref_embeddings : np.ndarray3) (g g' : Lab2.GenSeq) : Prop :=
  Lab2.prompt_id g' = Lab2.prompt_id g /\
  Lab2.sequence g' = Lab2.sequence g /\
  Lab2.description g' = Lab2.description g /\
  Lab2.embeddings g' = Lab2.embeddings g /\
  Lab2.distance_type g' = Some "cosine"%string /\
  exists e d,
    Lab2.embeddings g = Some e /\
    Lab2.cosine_distance e ref_embeddings true = Ok d /\
    Lab2.distance g' = Some d.

(** [s'] is the dict [s] after the turn of step 4.3 (Lab 3) fitted the
    structure [gen_structure] onto [ref_structure]: [t] and [after] are
    the transformation and the RMSD it stored. *)
Definition fitted (svd_rotation : list biotite.vec3 -> list biotite.vec3 -> biotite.mat3)
    (ref_structure gen_structure : biotite.AtomArray)
    (s s' : Lab3.Structure) (t : biotite.AffineTransformation)
    (after : np.float64) : Prop :=
  Lab3.run_id s' = Lab3.run_id s /\
  Lab3.prompt_id s' = Lab3.prompt_id s /\
  Lab3.sequence s' = Lab3.sequence s /\
  Lab3.description s' = Lab3.description s /\
  Lab3.transform s' = Some t /\
  Lab3.rmsd s' = Some after /\
  biotite.superimpose svd_rotation
    (fst (Lab3.ca_atoms ref_structure gen_structure))
    (snd (Lab3.ca_atoms ref_structure gen_structure))
  = Ok (biotite.apply t (snd (Lab3.ca_atoms ref_structure gen_structure)), t) /\
  biotite.rmsd (fst (Lab3.ca_atoms ref_structure gen_structure))
               (biotite.apply t (snd (Lab3.ca_atoms ref_structure gen_structure)))
  = Ok after.

End Loops.

(** ** Lab 3, steps 4.4 and 4.6: the frame with all its columns *)

Module Top.

(** A row of [pd.DataFrame(structures)] after [set_index('prompt_id')]. *)
Record FrameRow : Type := mk_FrameRow {
  prompt_id : string;
  run_id : string;
  sequence : string;
  description : string;
  transform : option biotite.AffineTransformation;
  rmsd : pd.cell
}.

Definition frame_rows (structures : list Lab3.Structure) : list FrameRow :=
  map (fun sc => {| prompt_id := Lab3.prompt_id (fst sc);
                    run_id := Lab3.run_id (fst sc);
                    sequence := Lab3.sequence (fst sc);
                    description := Lab3.description (fst sc);
                    transform := Lab3.transform (fst sc);
                    rmsd := snd sc |})
      (combine structures (pd.score_column (map Lab3.rmsd structures))).

(** The columns of a row that the selection of step 4.5 reads. *)
Definition columns (r : FrameRow) : pd.Row :=
  {| pd.prompt_id := prompt_id r;
     pd.sequence := sequence r;
     pd.description := description r;
     pd.score := rmsd r |}.

Definition isna (r : FrameRow) : bool := pd.isna (rmsd r).
Definition notna (r : FrameRow) : bool := negb (pd.isna (rmsd r)).
Definition key_le (r1 r2 : FrameRow) : Prop := pd.key_le (columns r1) (columns r2).

(** [df.sort_values(by='rmsd', ascending=True)] on whole rows. *)
Inductive sort_values (df : list FrameRow) : list FrameRow -> Prop :=
| sort_values_intro (s : list FrameRow) :
    Permutation s (filter notna df) ->
    Sorted key_le s ->
    sort_values df (s ++ filter isna df).

(** Step 4.4: the frame of [structures], indexed and sorted. *)
Inductive sorted_frame (structures : list Lab3.Structure)
  : pyresult (list FrameRow) -> Prop :=
| sorted_frame_raise :
    structures = [] -> sorted_frame structures (Raise KeyError)
| sorted_frame_ok (df : list FrameRow) :
    structures <> [] ->
    sort_values (frame_rows structures) df ->
    sorted_frame structures (Ok df).

(** What step 4.6 ends with. *)
Inductive shown : Type :=
| Shown (gen_structure_fit : biotite.AtomArray)
| IndexError        (* df.iloc[0] on a frame without rows *)
| AttributeError.   (* None has no attribute 'apply' *)

(** Step 4.6 up to the viewer: the first row of the sorted frame, the
    prediction of its run, and the stored transformation applied to the
    whole structure. *)
Definition superimpose_top (prediction : string -> biotite.AtomArray)
    (df : list FrameRow) : shown :=
  match df with
  | [] => IndexError
  | top_gen_structure_info :: _ =>
      let gen_structure := prediction (run_id top_gen_structure_info) in
      match transform top_gen_structure_info with
      | None => AttributeError
      | Some transform => Shown (biotite.apply transform gen_structure)
      end
  end.

End Top.

(** ** Concrete inputs *)

Module Examples.

(** Embeddings of shape (1, 3, 2) and (1, 4, 2). *)
Definition emb_3 : np.ndarray3 :=
  np.array3 2 [[[9; 9]; [1; 0]; [9; 9]]].

Definition emb_4 : np.ndarray3 :=
  np.array3 2 [[[7; 7]; [0; 1]; [0; 3]; [7; 7]]].

(** [emb_3] with other values at the two boundary positions. *)
Definition emb_3_bounds : np.ndarray3 :=
  np.array3 2 [[[0; 0]; [1; 0]; [5; 5]]].

(** An embedding of shape (1, 3, 1) whose inner position is zero. *)
Definition emb_zero : np.ndarray3 :=
  np.array3 1 [[[5]; [0]; [5]]].

Definition emb_one : np.ndarray3 :=
  np.array3 1 [[[5]; [1]; [5]]].

(** An embedding of shape (1, 4, 2) whose two inner positions are zero. *)
Definition emb_blank : np.ndarray3 :=
  np.array3 2 [[[3; 4]; [0; 0]; [0; 0]; [1; 2]]].

(** An embedding of shape (1, 2, 2): only the two boundary positions. *)
Definition emb_short : np.ndarray3 :=
  np.array3 2 [[[1; 2]; [3; 4]]].

(** An embedding of shape (1, 3, 3). *)
Definition emb_wide : np.ndarray3 :=
  np.array3 3 [[[1; 2; 3]; [4; 5; 6]; [7; 8; 9]]].

(** Atoms at the given integer coordinates. *)
Definition atom (name : string) (res : Z) (x y z : Z) : biotite.Atom :=
  {| biotite.atom_name := name;
     biotite.res_id := res;
     biotite.coord := (np.Fin (IZR x), np.Fin (IZR y), np.Fin (IZR z)) |}.

(** A reference of two residues (N, CA, C each), a prediction of one
    residue, and a prediction without any alpha carbon. *)
Definition ref_structure : biotite.AtomArray :=
  [atom "N" 1 0 0 0; atom "CA" 1 1 0 0; atom "C" 1 2 0 0;
   atom "N" 2 3 0 0; atom "CA" 2 4 0 0; atom "C" 2 5 0 0].

Definition gen_structure : biotite.AtomArray :=
  [atom "N" 1 0 1 0; atom "CA" 1 1 1 0; atom "C" 1 2 1 0].

Definition gen_no_ca : biotite.AtomArray :=
  [atom "N" 1 0 1 0; atom "C" 1 2 1 0].

Definition identity : biotite.mat3 :=
  ((np.Fin 1, np.Fin 0, np.Fin 0),
   (np.Fin 0, np.Fin 1, np.Fin 0),
   (np.Fin 0, np.Fin 0, np.Fin 1)).

(** A rotation finder that answers the identity. *)
Definition no_rotation (fixed mobile : list biotite.vec3) : biotite.mat3 :=
  identity.

Definition structure_1 : Lab3.Structure :=
  {| Lab3.run_id := "1234567";
     Lab3.prompt_id := "seq1";
     Lab3.sequence := "MK";
     Lab3.description := "seq1 generated,distance=0.01";
     Lab3.transform := None;
     Lab3.rmsd := None |}.

(** Rows of a frame, and candidates of Lab 2: [g2] carries no score. *)
Definition row (pid : string) (c : pd.cell) : pd.Row :=
  {| pd.prompt_id := pid;
     pd.sequence := "MKV";
     pd.description := (pid ++ " generated")%string;
     pd.score := c |}.

Definition cand_a : pd.Row := row "a" (pd.CFloat (np.Fin (1 / 2))).
Definition cand_b : pd.Row := row "b" (pd.CFloat (np.Fin (1 / 2))).

(** Eighteen candidates "a" .. "r" of one score, in input order, and the
    arrangement a median-of-three quicksort leaves them in: the pivot is
    parked, the two scans stop at once on equal keys and exchange the
    rows pairwise from both ends, and the two halves, short enough for
    insertion sort, stay as they are. *)
Definition tied (i : nat) : pd.Row :=
  row (String (Ascii.ascii_of_nat (97 + i)) EmptyString)
      (pd.CFloat (np.Fin (1 / 2))).

Definition tied_rows : list pd.Row := map tied (seq 0 18).

Definition tied_quicksorted : list pd.Row :=
  tied 0 :: rev (map tied (seq 1 15)) ++ [tied 16; tied 17].

Definition gen_seq (pid : string) (d : option np.float64) : Lab2.GenSeq :=
  {| Lab2.prompt_id := pid;
     Lab2.sequence := "MKV";
     Lab2.description := (pid ++ " generated")%string;
     Lab2.embeddings := None;
     Lab2.distance := d;
     Lab2.distance_type := option_map (fun _ => "cosine"%string) d |}.

Definition g1 : Lab2.GenSeq := gen_seq "g1" (Some (np.Fin (3 / 10))).
Definition g2 : Lab2.GenSeq := gen_seq "g2" None.
Definition g3 : Lab2.GenSeq := gen_seq "g3" (Some (np.Fin (1 / 10))).

Definition gen_sequences : list Lab2.GenSeq := [g1; g2; g3].

(** Candidates of Lab 2 before scoring; the second embedding has another
    hidden size than the reference [emb_4]. *)
Definition unscored (pid : string) (e : np.ndarray3) : Lab2.GenSeq :=
  {| Lab2.prompt_id := pid;
     Lab2.sequence := "MKV";
     Lab2.description := (pid ++ " generated")%string;
     Lab2.embeddings := Some e;
     Lab2.distance := None;
     Lab2.distance_type := None |}.

Definition loaded : list Lab2.GenSeq :=
  [unscored "g1" emb_3; unscored "g2" emb_wide; unscored "g3" emb_3].

Definition notebook : Lab2.Notebook :=
  {| Lab2.gen_sequences := gen_sequences; Lab2.df := []; Lab2.records := [] |}.

(** A printer of scores that tells numbers from NaN only. *)
Definition repr_float (x : np.float64) : string :=
  if np.isnan x then "nan"%string else "0.0"%string.

End Examples.

(** * Properties *)

(** ** Arithmetic of float64 values *)

Lemma mean_nil : np.mean [] = np.NaN.
Proof.
  unfold np.mean. simpl.
  destruct (Req_EM_T 0 0) as [_|N]; [|exfalso; apply N; reflexivity].
  destruct (Req_EM_T 0 0) as [_|N]; [reflexivity|exfalso; apply N; reflexivity].
Qed.

(** ** Slices, means and flattening *)

Lemma slice_bound_1 (n : nat) : np.slice_bound 1 n = Nat.min 1 n.
Proof. reflexivity. Qed.

Lemma slice_bound_m1 (n : nat) : np.slice_bound (-1) n = (n - 1)%nat.
Proof.
  unfold np.slice_bound. change (-1 <? 0)%Z with true. cbv iota. lia.
Qed.

Lemma slice_inner_shape (e : np.ndarray3) :
  np.shape0 (np.slice_axis1 e 1 (-1)) = np.shape0 e /\
  np.shape1 (np.slice_axis1 e 1 (-1)) = (np.shape1 e - 2)%nat /\
  np.shape2 (np.slice_axis1 e 1 (-1)) = np.shape2 e.
Proof.
  unfold np.slice_axis1. cbn [np.shape0 np.shape1 np.shape2].
  rewrite slice_bound_1, slice_bound_m1. repeat split; lia.
Qed.

Lemma slice_inner_item (e : np.ndarray3) (b i j : nat) :
  (1 <= np.shape1 e)%nat ->
  np.item3 (np.slice_axis1 e 1 (-1)) b i j = np.item3 e b (S i) j.
Proof.
  intros H. unfold np.slice_axis1. cbn [np.item3].
  rewrite slice_bound_1. replace (Nat.min 1 (np.shape1 e)) with 1%nat by lia.
  reflexivity.
Qed.

Lemma length_ravel2 (a : np.ndarray2) :
  length (np.ravel2 a) = (np.nrows a * np.ncols a)%nat.
Proof.
  unfold np.ravel2. generalize 0%nat at 2. generalize (np.nrows a) as n.
  induction n as [|n IH]; intros s; simpl; [reflexivity|].
  rewrite length_app, length_map, length_seq, IH. reflexivity.
Qed.

Lemma ravel2_one_row (a : np.ndarray2) :
  np.nrows a = 1%nat ->
  np.ravel2 a = map (fun j => np.item2 a 0 j) (seq 0 (np.ncols a)).
Proof.
  intros H. unfold np.ravel2. rewrite H. simpl. apply app_nil_r.
Qed.

Lemma length_pooled (e : np.ndarray3) :
  length (Lab2.pooled e) = (np.shape0 e * np.shape2 e)%nat.
Proof.
  unfold Lab2.pooled. rewrite length_ravel2. reflexivity.
Qed.

Lemma cosine_distance_flattened (e1 e2 : np.ndarray3) (p : bool) :
  Lab2.cosine_distance e1 e2 p
  = distance.cosine (Lab2.flattened p e1) (Lab2.flattened p e2).
Proof. destruct p; reflexivity. Qed.

(** The pooled vector of a batch of one sequence: for each hidden index
    the numpy mean over the positions 1 .. L-2. *)
Lemma pooled_entries (e : np.ndarray3) :
  np.shape0 e = 1%nat -> (1 <= np.shape1 e)%nat ->
  Lab2.pooled e
  = map (fun j => np.mean (map (fun i => np.item3 e 0 i j)
                               (seq 1 (np.shape1 e - 2))))
        (seq 0 (np.shape2 e)).
Proof.
  intros HB HL. unfold Lab2.pooled.
  rewrite ravel2_one_row by (cbn; exact HB).
  cbn [np.ncols np.mean_axis1 np.shape2 np.slice_axis1].
  apply map_ext. intros j. cbn [np.item2 np.mean_axis1].
  destruct (slice_inner_shape e) as (_ & -> & _).
  f_equal. rewrite <- seq_shift, map_map. apply map_ext. intros i.
  now apply slice_inner_item.
Qed.

(** With at most two positions the slice is empty and every pooled entry
    is the mean of nothing. *)
Lemma pooled_short (e : np.ndarray3) :
  (np.shape1 e <= 2)%nat -> Forall (eq np.NaN) (Lab2.pooled e).
Proof.
  intros HL. unfold Lab2.pooled, np.ravel2.
  apply Forall_flat_map, Forall_forall. intros b _.
  apply Forall_map, Forall_forall. intros j _.
  cbn [np.item2 np.mean_axis1].
  destruct (slice_inner_shape e) as (_ & -> & _).
  replace (np.shape1 e - 2)%nat with 0%nat by lia. simpl.
  symmetry. apply mean_nil.
Qed.

(** ** What [distance.cosine] returns *)

Lemma cosine_length_mismatch (u v : list np.float64) :
  length u <> length v -> distance.cosine u v = Raise ValueError.
Proof.
  intros H. unfold distance.cosine.
  destruct (Nat.eqb_spec (length u) (length v)); [contradiction|reflexivity].
Qed.

Lemma cosine_same_length (u v : list np.float64) :
  length u = length v ->
  distance.cosine u v
  = Ok (np.clip (np.sub (np.Fin 1)
          (np.div (np.dot u v) (np.sqrt (np.mul (np.dot u u) (np.dot v v))))) 0 2).
Proof.
  intros H. unfold distance.cosine. rewrite H, Nat.eqb_refl. reflexivity.
Qed.

Lemma mul_NaN_r (a : np.float64) : np.mul a np.NaN = np.NaN.
Proof. destruct a; reflexivity. Qed.

Lemma div_zero_zero : np.div (np.Fin 0) (np.Fin 0) = np.NaN.
Proof.
  unfold np.div.
  destruct (Req_EM_T 0 0) as [_|N]; [reflexivity|exfalso; apply N; reflexivity].
Qed.

Lemma sqrt_Fin_zero : np.sqrt (np.Fin 0) = np.Fin 0.
Proof.
  unfold np.sqrt. destruct (Rlt_dec 0 0) as [H|_]; [lra|]. now rewrite sqrt_0.
Qed.

Lemma mul_zero_l (a : np.float64) :
  np.mul (np.Fin 0) a = np.Fin 0 \/ np.mul (np.Fin 0) a = np.NaN.
Proof.
  destruct a as [x|s|]; simpl.
  - left. f_equal. lra.
  - right. destruct (Req_EM_T 0 0) as [_|N]; [reflexivity|exfalso; apply N; reflexivity].
  - right. reflexivity.
Qed.

Lemma mul_zero_r (a : np.float64) :
  np.mul a (np.Fin 0) = np.Fin 0 \/ np.mul a (np.Fin 0) = np.NaN.
Proof.
  destruct a as [x|s|]; simpl.
  - left. f_equal. lra.
  - right. destruct (Req_EM_T 0 0) as [_|N]; [reflexivity|exfalso; apply N; reflexivity].
  - right. reflexivity.
Qed.

(** A vector whose first entry is NaN has a NaN product with any vector. *)
Lemma dot_NaN_l (u v : list np.float64) (b : np.float64) :
  np.dot (np.NaN :: u) (b :: v) = np.NaN.
Proof. reflexivity. Qed.

Lemma dot_NaN_r (u v : list np.float64) (a : np.float64) :
  np.dot (a :: u) (np.NaN :: v) = np.NaN.
Proof. simpl. rewrite mul_NaN_r. reflexivity. Qed.

Lemma cosine_nil : distance.cosine [] [] = Ok np.NaN.
Proof.
  rewrite cosine_same_length by reflexivity. simpl np.dot.
  replace (np.mul (np.Fin 0) (np.Fin 0)) with (np.Fin 0)
    by (simpl; f_equal; lra).
  rewrite sqrt_Fin_zero, div_zero_zero. reflexivity.
Qed.

Lemma cosine_NaN_l (u v : list np.float64) :
  Forall (eq np.NaN) u -> length u = length v ->
  distance.cosine u v = Ok np.NaN.
Proof.
  intros Hu Hlen. destruct u as [|a u].
  - destruct v; [apply cosine_nil|discriminate].
  - destruct v as [|b v]; [discriminate|].
    rewrite cosine_same_length by exact Hlen.
    inversion Hu as [|? ? Ha _]; subst.
    rewrite dot_NaN_l. reflexivity.
Qed.

Lemma cosine_NaN_r (u v : list np.float64) :
  Forall (eq np.NaN) v -> length u = length v ->
  distance.cosine u v = Ok np.NaN.
Proof.
  intros Hv Hlen. destruct v as [|b v].
  - destruct u; [apply cosine_nil|discriminate].
  - destruct u as [|a u]; [discriminate|].
    rewrite cosine_same_length by exact Hlen.
    inversion Hv as [|? ? Hb _]; subst.
    rewrite dot_NaN_r. reflexivity.
Qed.

(** *** Zero magnitude *)

Lemma ratio_zero_NaN (n d : np.float64) :
  (n = np.Fin 0 \/ n = np.NaN) -> (d = np.Fin 0 \/ d = np.NaN) ->
  np.div n (np.sqrt d) = np.NaN.
Proof.
  intros [-> | ->] [-> | ->]; try reflexivity.
  rewrite sqrt_Fin_zero. apply div_zero_zero.
Qed.

(** *** What the clipping leaves *)

Lemma clip_range (a : np.float64) :
  np.clip a 0 2 = np.NaN \/ exists x, np.clip a 0 2 = np.Fin x /\ 0 <= x <= 2.
Proof.
  destruct a as [x|[|]|]; simpl.
  - right. eexists. split; [reflexivity|].
    unfold Rmin, Rmax.
    destruct (Rle_dec x 0); destruct (Rle_dec _ 2); lra.
  - right. exists 0. split; [reflexivity|lra].
  - right. exists 2. split; [reflexivity|lra].
  - left. reflexivity.
Qed.

Lemma cosine_range (u v : list np.float64) :
  length u = length v ->
  exists d, distance.cosine u v = Ok d /\
            (d = np.NaN \/ exists x, d = np.Fin x /\ 0 <= x <= 2).
Proof.
  intros Hlen. rewrite cosine_same_length by exact Hlen.
  eexists. split; [reflexivity|]. apply clip_range.
Qed.

(** *** Embeddings of zeros *)

Lemma zero_or_nan_add (a b : np.float64) :
  zero_or_nan a -> zero_or_nan b -> zero_or_nan (np.add a b).
Proof.
  intros [-> | ->] [-> | ->]; simpl; try (right; reflexivity).
  left. f_equal. lra.
Qed.

Lemma zero_or_nan_mul_l (a b : np.float64) :
  zero_or_nan a -> zero_or_nan (np.mul a b).
Proof.
  intros [-> | ->]; [apply mul_zero_l|right; reflexivity].
Qed.

Lemma zero_or_nan_mul_r (a b : np.float64) :
  zero_or_nan b -> zero_or_nan (np.mul a b).
Proof.
  intros [-> | ->]; [apply mul_zero_r|right; apply mul_NaN_r].
Qed.

Lemma dot_zero_or_nan_l (u v : list np.float64) :
  Forall zero_or_nan u -> zero_or_nan (np.dot u v).
Proof.
  intros Hu. revert v. induction Hu as [|a u Ha _ IH]; intros v.
  - left. reflexivity.
  - destruct v as [|b v]; [left; reflexivity|]. cbn [np.dot].
    apply zero_or_nan_add; [now apply zero_or_nan_mul_l|apply IH].
Qed.

Lemma dot_zero_or_nan_r (u v : list np.float64) :
  Forall zero_or_nan v -> zero_or_nan (np.dot u v).
Proof.
  intros Hv. revert u. induction Hv as [|b v Hb _ IH]; intros u.
  - left. destruct u; reflexivity.
  - destruct u as [|a u]; [left; reflexivity|]. cbn [np.dot].
    apply zero_or_nan_add; [now apply zero_or_nan_mul_r|apply IH].
Qed.

(** Against a vector of zeros (or of NaN) the quotient is [0/0]. *)
Lemma cosine_zero_or_nan (u v : list np.float64) :
  length u = length v ->
  Forall zero_or_nan u \/ Forall zero_or_nan v ->
  distance.cosine u v = Ok np.NaN.
Proof.
  intros Hlen Hz. rewrite cosine_same_length by exact Hlen.
  assert (Hr : np.div (np.dot u v) (np.sqrt (np.mul (np.dot u u) (np.dot v v)))
               = np.NaN).
  { destruct Hz as [Hu | Hv]; apply ratio_zero_NaN.
    - now apply dot_zero_or_nan_l.
    - apply zero_or_nan_mul_l. now apply dot_zero_or_nan_l.
    - now apply dot_zero_or_nan_r.
    - apply zero_or_nan_mul_r. now apply dot_zero_or_nan_r. }
  rewrite Hr. reflexivity.
Qed.

Lemma sum_zeros (l : list np.float64) :
  Forall (eq (np.Fin 0)) l -> np.sum l = np.Fin 0.
Proof.
  unfold np.sum. induction 1 as [|a l <- _ IH]; [reflexivity|].
  cbn [fold_right]. rewrite IH. simpl. f_equal. lra.
Qed.

(** The mean of zeros is zero, and the mean of nothing is NaN. *)
Lemma mean_zeros (l : list np.float64) :
  Forall (eq (np.Fin 0)) l -> zero_or_nan (np.mean l).
Proof.
  intros H. unfold np.mean. rewrite (sum_zeros l H). unfold np.div.
  destruct (Req_EM_T (INR (length l)) 0) as [_|_].
  - destruct (Req_EM_T 0 0) as [_|N]; [right; reflexivity|].
    exfalso. apply N. reflexivity.
  - left. f_equal. unfold Rdiv. apply Rmult_0_l.
Qed.

Lemma flattened_zero_entries (p : bool) (e : np.ndarray3) :
  zero_entries p e -> Forall zero_or_nan (Lab2.flattened p e).
Proof.
  intros Hz. destruct p; cbn [Lab2.flattened].
  - unfold Lab2.pooled, np.ravel2.
    apply Forall_flat_map, Forall_forall. intros b Hb.
    apply Forall_map, Forall_forall. intros j Hj.
    cbn [np.item2 np.mean_axis1 np.nrows np.ncols] in *.
    destruct (slice_inner_shape e) as (E0 & E1 & E2).
    rewrite E0 in Hb. rewrite E2 in Hj. rewrite E1.
    apply in_seq in Hb. apply in_seq in Hj.
    apply mean_zeros. apply Forall_map, Forall_forall. intros i Hi.
    apply in_seq in Hi. rewrite slice_inner_item by lia.
    symmetry. apply Hz; [lia|lia|lia|intros _; lia].
  - unfold np.ravel3.
    apply Forall_flat_map, Forall_forall. intros b Hb.
    apply Forall_flat_map, Forall_forall. intros i Hi.
    apply Forall_map, Forall_forall. intros j Hj.
    apply in_seq in Hb. apply in_seq in Hi. apply in_seq in Hj.
    left. apply Hz; [lia|lia|lia|discriminate].
Qed.

Lemma cosine_distance_zero_entries (e1 e2 : np.ndarray3) (p : bool) :
  length (Lab2.flattened p e1) = length (Lab2.flattened p e2) ->
  zero_entries p e1 \/ zero_entries p e2 ->
  Lab2.cosine_distance e1 e2 p = Ok np.NaN.
Proof.
  intros Hlen Hz. rewrite cosine_distance_flattened.
  apply cosine_zero_or_nan; [exact Hlen|].
  destruct Hz as [H | H]; [left|right]; now apply flattened_zero_entries.
Qed.

(** ** The embedding-distance scorer *)

(** The pooled vectors of [emb_3] and [emb_4], and their distance: every
    intermediate value is a small integer, which float64 holds exactly. *)
Ltac np_cases :=
  repeat match goal with
         | |- context [Req_EM_T ?a ?b] =>
             destruct (Req_EM_T a b); [try (exfalso; lra)|try (exfalso; lra)]
         | |- context [Rlt_dec ?a ?b] =>
             destruct (Rlt_dec a b); [try (exfalso; lra)|try (exfalso; lra)]
         end.

Lemma pooled_emb_3 : Lab2.pooled Examples.emb_3 = [np.Fin 1; np.Fin 0].
Proof.
  rewrite pooled_entries; [|reflexivity|simpl; lia].
  cbn [Examples.emb_3 np.array3 np.shape1 np.shape2 np.item3 length nth
       Nat.sub seq map].
  unfold np.mean. cbn [np.sum fold_right np.add length INR].
  unfold np.div. np_cases.
  repeat (f_equal; try lra).
Qed.

Lemma pooled_emb_4 : Lab2.pooled Examples.emb_4 = [np.Fin 0; np.Fin 2].
Proof.
  rewrite pooled_entries; [|reflexivity|simpl; lia].
  cbn [Examples.emb_4 np.array3 np.shape1 np.shape2 np.item3 length nth
       Nat.sub seq map].
  unfold np.mean. cbn [np.sum fold_right np.add length INR].
  unfold np.div. np_cases.
  repeat (f_equal; try lra).
Qed.

Lemma cosine_orthogonal_value :
  np.clip
    (np.sub (np.Fin 1)
       (np.div (np.dot [np.Fin 1; np.Fin 0] [np.Fin 0; np.Fin 2])
          (np.sqrt (np.mul (np.dot [np.Fin 1; np.Fin 0] [np.Fin 1; np.Fin 0])
                           (np.dot [np.Fin 0; np.Fin 2] [np.Fin 0; np.Fin 2])))))
    0 2 = np.Fin 1.
Proof.
  cbn [np.dot np.mul np.add].
  replace (1 * 0 + (0 * 2 + 0)) with 0 by lra.
  replace ((1 * 1 + (0 * 0 + 0)) * (0 * 0 + (2 * 2 + 0))) with (2 * 2) by lra.
  unfold np.sqrt. destruct (Rlt_dec (2 * 2) 0) as [H|_]; [lra|].
  rewrite sqrt_square by lra.
  unfold np.div. destruct (Req_EM_T 2 0) as [H|_]; [lra|].
  cbn [np.sub np.neg np.add np.clip]. f_equal.
  replace (1 + - (0 / 2)) with 1 by lra.
  rewrite Rmax_left by lra. rewrite Rmin_left by lra. reflexivity.
Qed.

(** C1, as the code has it.  For two embeddings of shape (1, L1, D) and
    (1, L2, D) with L1, L2 >= 3, mean pooling turns each one into the
    vector of length D that holds, for each hidden index, numpy's mean
    over the positions 1 .. L-2 (first and last left out), and
    [cosine_distance] returns scipy's cosine distance of the two pooled
    vectors, 1 - uv / sqrt(uu * vv) in float64 operations, clipped to
    [0, 2].  Nothing is raised, whatever L1 and L2 are, and the one value
    returned is a number within [0, 2] or NaN. *)
Theorem C1_mean_pooled_cosine_distance (e1 e2 : np.ndarray3) :
  np.shape0 e1 = 1%nat -> np.shape0 e2 = 1%nat ->
  (3 <= np.shape1 e1)%nat -> (3 <= np.shape1 e2)%nat ->
  np.shape2 e1 = np.shape2 e2 ->
  length (Lab2.pooled e1) = np.shape2 e1 /\
  length (Lab2.pooled e2) = np.shape2 e1 /\
  Lab2.pooled e1
  = map (fun j => np.mean (map (fun i => np.item3 e1 0 i j)
                               (seq 1 (np.shape1 e1 - 2))))
        (seq 0 (np.shape2 e1)) /\
  Lab2.pooled e2
  = map (fun j => np.mean (map (fun i => np.item3 e2 0 i j)
                               (seq 1 (np.shape1 e2 - 2))))
        (seq 0 (np.shape2 e2)) /\
  (forall i, In i (seq 1 (np.shape1 e1 - 2)) <-> 0 < i < np.shape1 e1 - 1)%nat /\
  (forall i, In i (seq 1 (np.shape1 e2 - 2)) <-> 0 < i < np.shape1 e2 - 1)%nat /\
  Lab2.cosine_distance e1 e2 true
  = Ok (np.clip
          (np.sub (np.Fin 1)
             (np.div (np.dot (Lab2.pooled e1) (Lab2.pooled e2))
                (np.sqrt (np.mul (np.dot (Lab2.pooled e1) (Lab2.pooled e1))
                                 (np.dot (Lab2.pooled e2) (Lab2.pooled e2))))))
          0 2) /\
  (exists d, Lab2.cosine_distance e1 e2 true = Ok d /\
             (d = np.NaN \/ exists x, d = np.Fin x /\ 0 <= x <= 2)).
Proof.
  intros B1 B2 L1 L2 HD.
  assert (Len1 : length (Lab2.pooled e1) = np.shape2 e1)
    by (rewrite length_pooled, B1; lia).
  assert (Len2 : length (Lab2.pooled e2) = np.shape2 e1)
    by (rewrite length_pooled, B2; lia).
  split; [exact Len1|]. split; [exact Len2|].
  split; [apply pooled_entries; [exact B1|lia]|].
  split; [apply pooled_entries; [exact B2|lia]|].
  split; [intros i; rewrite in_seq; lia|].
  split; [intros i; rewrite in_seq; lia|].
  rewrite cosine_distance_flattened. cbn [Lab2.flattened]. split.
  - apply cosine_same_length. congruence.
  - apply cosine_range. congruence.
Qed.

Lemma C1_witness :
  length (Lab2.pooled Examples.emb_3) = 2%nat /\
  length (Lab2.pooled Examples.emb_4) = 2%nat /\
  Lab2.cosine_distance Examples.emb_3 Examples.emb_4 true = Ok (np.Fin 1).
Proof.
  assert (L1 : (3 <= np.shape1 Examples.emb_3)%nat) by (simpl; lia).
  assert (L2 : (3 <= np.shape1 Examples.emb_4)%nat) by (simpl; lia).
  pose proof (C1_mean_pooled_cosine_distance Examples.emb_3 Examples.emb_4
                eq_refl eq_refl L1 L2 eq_refl) as H.
  destruct H as (H1 & H2 & _ & _ & _ & _ & H3 & _).
  split; [exact H1|]. split; [exact H2|].
  rewrite pooled_emb_3, pooled_emb_4, cosine_orthogonal_value in H3.
  exact H3.
Defined.

(** C1, as the spec has it, fails: [emb_blank] has shape (1, 4, 2) and
    [emb_3] shape (1, 3, 2); the two inner positions of [emb_blank] are
    zero, so is its pooled vector, and the scorer returns NaN, which is
    no real score. *)
Lemma C1_counterexample :
  np.shape0 Examples.emb_blank = 1%nat /\
  np.shape0 Examples.emb_3 = 1%nat /\
  np.shape1 Examples.emb_blank = 4%nat /\
  np.shape1 Examples.emb_3 = 3%nat /\
  np.shape2 Examples.emb_blank = np.shape2 Examples.emb_3 /\
  Lab2.cosine_distance Examples.emb_blank Examples.emb_3 true = Ok np.NaN /\
  ~ (exists x : R,
       Lab2.cosine_distance Examples.emb_blank Examples.emb_3 true
       = Ok (np.Fin x)).
Proof.
  assert (Hr : Lab2.cosine_distance Examples.emb_blank Examples.emb_3 true
               = Ok np.NaN).
  { apply cosine_distance_zero_entries.
    - cbn [Lab2.flattened]. rewrite !length_pooled. reflexivity.
    - left. intros b i j Hb Hi Hj Hin. specialize (Hin eq_refl).
      cbn in Hb, Hi, Hj, Hin.
      assert (b = 0%nat) by lia. subst b.
      assert (i = 1%nat \/ i = 2%nat) as [-> | ->] by lia;
        (assert (j = 0%nat \/ j = 1%nat) as [-> | ->] by lia; reflexivity). }
  repeat split; try reflexivity; try exact Hr.
  intros [x Hx]. rewrite Hr in Hx. discriminate.
Qed.

(** C3, as the code has it.  [cosine_distance] raises exactly when the
    two flattened vectors have different lengths, and what it raises is
    numpy's ValueError from the dot product.  With equal lengths it
    returns a value: zero magnitude is no error, and when every entry
    that the scorer reads of one of the embeddings is zero the value is
    NaN. *)
Theorem C3_cosine_distance_outcomes (e1 e2 : np.ndarray3) (p : bool) :
  (Lab2.cosine_distance e1 e2 p = Raise ValueError
   <-> length (Lab2.flattened p e1) <> length (Lab2.flattened p e2)) /\
  (forall x, Lab2.cosine_distance e1 e2 p = Raise x -> x = ValueError) /\
  (length (Lab2.flattened p e1) = length (Lab2.flattened p e2) ->
   (exists d, Lab2.cosine_distance e1 e2 p = Ok d) /\
   (zero_entries p e1 \/ zero_entries p e2 ->
    Lab2.cosine_distance e1 e2 p = Ok np.NaN)).
Proof.
  split; [|split].
  - rewrite cosine_distance_flattened. split.
    + intros H Hlen. rewrite cosine_same_length in H by exact Hlen.
      discriminate.
    + apply cosine_length_mismatch.
  - intros x. rewrite cosine_distance_flattened. unfold distance.cosine.
    destruct (Nat.eqb _ _); [discriminate|]. congruence.
  - intros Hlen. split.
    + rewrite cosine_distance_flattened. eexists.
      apply cosine_same_length. exact Hlen.
    + now apply cosine_distance_zero_entries.
Qed.

(** The pooled vector of [emb_zero]: the mean of its one inner position. *)
Lemma pooled_emb_zero : Lab2.pooled Examples.emb_zero = [np.Fin 0].
Proof.
  rewrite pooled_entries; [|reflexivity|simpl; lia].
  cbn [Examples.emb_zero np.array3 np.shape1 np.shape2 np.item3 length nth
       Nat.sub seq map].
  unfold np.mean. cbn [np.sum fold_right np.add length INR].
  unfold np.div. destruct (Req_EM_T 1 0) as [E|_]; [lra|].
  do 2 f_equal. lra.
Qed.

Lemma dot_Fin_zero : np.dot [np.Fin 0] [np.Fin 0] = np.Fin 0.
Proof. simpl. f_equal. lra. Qed.

Lemma C3_witness :
  Lab2.cosine_distance Examples.emb_zero Examples.emb_one true = Ok np.NaN.
Proof.
  refine (proj2 (proj2 (proj2
    (C3_cosine_distance_outcomes Examples.emb_zero Examples.emb_one true)) _) _).
  - cbn [Lab2.flattened]. rewrite !length_pooled. reflexivity.
  - left. intros b i j Hb Hi Hj Hin. specialize (Hin eq_refl).
    cbn in Hb, Hi, Hj, Hin.
    assert (b = 0%nat) by lia. assert (i = 1%nat) by lia.
    assert (j = 0%nat) by lia. subst. reflexivity.
Defined.

(** C3, as the spec has it, fails: the pooled vector of [emb_zero] has
    zero magnitude, and the scorer returns NaN where an error is
    claimed. *)
Lemma C3_counterexample :
  np.dot (Lab2.pooled Examples.emb_zero) (Lab2.pooled Examples.emb_zero)
    = np.Fin 0 /\
  Lab2.cosine_distance Examples.emb_zero Examples.emb_one true = Ok np.NaN /\
  ~ (exists e, Lab2.cosine_distance Examples.emb_zero Examples.emb_one true
               = Raise e).
Proof.
  assert (Hz : np.dot (Lab2.pooled Examples.emb_zero) (Lab2.pooled Examples.emb_zero)
               = np.Fin 0)
    by (rewrite pooled_emb_zero; apply dot_Fin_zero).
  assert (Hr : Lab2.cosine_distance Examples.emb_zero Examples.emb_one true
               = Ok np.NaN).
  { rewrite cosine_distance_flattened. apply cosine_zero_or_nan.
    - cbn [Lab2.flattened]. rewrite !length_pooled. reflexivity.
    - left. cbn [Lab2.flattened]. rewrite pooled_emb_zero.
      constructor; [left; reflexivity|constructor]. }
  repeat split; try assumption.
  intros [e He]. rewrite Hr in He. discriminate.
Qed.

(** C9.  An embedding with at most two positions on the sequence axis is
    pooled over an empty slice: every pooled entry is NaN, and against
    any embedding of the same batch and hidden sizes [cosine_distance]
    returns NaN, whichever side the short embedding is on.  Nothing is
    raised, and the score is no real number. *)
Theorem C9_short_embedding_scores_NaN (e1 e2 : np.ndarray3) :
  (np.shape1 e1 <= 2)%nat ->
  np.shape0 e1 = np.shape0 e2 ->
  np.shape2 e1 = np.shape2 e2 ->
  np.shape1 (np.slice_axis1 e1 1 (-1)) = 0%nat /\
  Forall (eq np.NaN) (Lab2.pooled e1) /\
  Lab2.cosine_distance e1 e2 true = Ok np.NaN /\
  Lab2.cosine_distance e2 e1 true = Ok np.NaN.
Proof.
  intros HL HB HD.
  pose proof (pooled_short e1 HL) as Hnan.
  assert (Hlen : length (Lab2.pooled e1) = length (Lab2.pooled e2))
    by (rewrite !length_pooled; congruence).
  repeat split.
  - destruct (slice_inner_shape e1) as (_ & -> & _). lia.
  - exact Hnan.
  - rewrite cosine_distance_flattened. now apply cosine_NaN_l.
  - rewrite cosine_distance_flattened. apply cosine_NaN_r; [exact Hnan|].
    cbn [Lab2.flattened]. congruence.
Qed.

Lemma C9_witness :
  Lab2.cosine_distance Examples.emb_short Examples.emb_4 true = Ok np.NaN.
Proof.
  assert (HL : (np.shape1 Examples.emb_short <= 2)%nat) by (simpl; lia).
  exact (proj1 (proj2 (proj2
    (C9_short_embedding_scores_NaN Examples.emb_short Examples.emb_4
       HL eq_refl eq_refl)))).
Defined.

(** ** The structural scorer *)

Lemma filter_subsequence {A : Type} (f : A -> bool) (l : list A) :
  subsequence (filter f l) l.
Proof.
  induction l as [|x l IH]; simpl; [constructor|].
  destruct (f x); now constructor.
Qed.

Lemma with_atom_name_In (name : string) (array : biotite.AtomArray) (a : biotite.Atom) :
  In a (biotite.with_atom_name name array)
  <-> In a array /\ biotite.atom_name a = name.
Proof.
  unfold biotite.with_atom_name. rewrite filter_In, String.eqb_eq. reflexivity.
Qed.

Lemma firstn_prefix {A : Type} (n : nat) (l : list A) :
  exists rest, l = firstn n l ++ rest.
Proof. exists (skipn n l). symmetry. apply firstn_skipn. Qed.

Lemma length_apply (t : biotite.AffineTransformation) (atoms : biotite.AtomArray) :
  length (biotite.apply t atoms) = length atoms.
Proof. apply length_map. Qed.

Lemma rmsd_same_length (reference subject : biotite.AtomArray) :
  length reference = length subject ->
  exists x, biotite.rmsd reference subject = Ok x.
Proof.
  intros H. unfold biotite.rmsd. rewrite H, Nat.eqb_refl. eauto.
Qed.

Lemma superimpose_same_length svd_rotation (fixed mobile : biotite.AtomArray) :
  length fixed = length mobile ->
  exists fit t,
    biotite.superimpose svd_rotation fixed mobile = Ok (fit, t) /\
    fit = biotite.apply t mobile.
Proof.
  intros H. unfold biotite.superimpose. rewrite H, Nat.eqb_refl. eauto.
Qed.

Lemma ca_atoms_lengths (ref_structure gen_structure : biotite.AtomArray) :
  length (fst (Lab3.ca_atoms ref_structure gen_structure))
  = Nat.min (length (biotite.with_atom_name "CA" ref_structure))
            (length (biotite.with_atom_name "CA" gen_structure)) /\
  length (snd (Lab3.ca_atoms ref_structure gen_structure))
  = Nat.min (length (biotite.with_atom_name "CA" ref_structure))
            (length (biotite.with_atom_name "CA" gen_structure)).
Proof.
  unfold Lab3.ca_atoms. cbn [fst snd]. rewrite !length_firstn. lia.
Qed.

(** C4.  The scorer takes from each structure the atoms named "CA", in
    the order of the file, and keeps of each subset the first
    [min(len(ref_ca), len(gen_ca))] atoms.  These two prefixes, of one
    length, are the arrays the loop hands to [struct.rmsd] and
    [struct.superimpose]; with them neither call raises. *)
Theorem C4_ca_atoms_equal_length_prefixes svd_rotation
    (ref_structure gen_structure : biotite.AtomArray) (s : Lab3.Structure) :
  subsequence (biotite.with_atom_name "CA" ref_structure) ref_structure /\
  subsequence (biotite.with_atom_name "CA" gen_structure) gen_structure /\
  (forall a, In a (biotite.with_atom_name "CA" ref_structure)
             <-> In a ref_structure /\ biotite.atom_name a = "CA"%string) /\
  (forall a, In a (biotite.with_atom_name "CA" gen_structure)
             <-> In a gen_structure /\ biotite.atom_name a = "CA"%string) /\
  Lab3.ca_atoms ref_structure gen_structure
  = (firstn (Nat.min (length (biotite.with_atom_name "CA" ref_structure))
                     (length (biotite.with_atom_name "CA" gen_structure)))
            (biotite.with_atom_name "CA" ref_structure),
     firstn (Nat.min (length (biotite.with_atom_name "CA" ref_structure))
                     (length (biotite.with_atom_name "CA" gen_structure)))
            (biotite.with_atom_name "CA" gen_structure)) /\
  length (fst (Lab3.ca_atoms ref_structure gen_structure))
  = length (snd (Lab3.ca_atoms ref_structure gen_structure)) /\
  (exists rest, biotite.with_atom_name "CA" ref_structure
                = fst (Lab3.ca_atoms ref_structure gen_structure) ++ rest) /\
  (exists rest, biotite.with_atom_name "CA" gen_structure
                = snd (Lab3.ca_atoms ref_structure gen_structure) ++ rest) /\
  (exists before fit t after,
     biotite.rmsd (fst (Lab3.ca_atoms ref_structure gen_structure))
                  (snd (Lab3.ca_atoms ref_structure gen_structure)) = Ok before /\
     biotite.superimpose svd_rotation
                  (fst (Lab3.ca_atoms ref_structure gen_structure))
                  (snd (Lab3.ca_atoms ref_structure gen_structure)) = Ok (fit, t) /\
     biotite.rmsd (fst (Lab3.ca_atoms ref_structure gen_structure)) fit = Ok after /\
     Lab3.score_structure svd_rotation ref_structure gen_structure s
     = (Lab3.set_rmsd (Lab3.set_transform s t) after,
        Ok {| Lab3.min_len :=
                Nat.min (length (biotite.with_atom_name "CA" ref_structure))
                        (length (biotite.with_atom_name "CA" gen_structure));
              Lab3.rmsd_before := before;
              Lab3.rmsd_after := after |})).
Proof.
  destruct (ca_atoms_lengths ref_structure gen_structure) as [Lr Lg].
  split; [apply filter_subsequence|].
  split; [apply filter_subsequence|].
  split; [intros a; apply with_atom_name_In|].
  split; [intros a; apply with_atom_name_In|].
  split; [reflexivity|].
  split; [congruence|].
  split; [apply firstn_prefix|].
  split; [apply firstn_prefix|].
  unfold Lab3.score_structure. unfold Lab3.ca_atoms in *. cbn [fst snd] in *.
  set (n := Nat.min (length (biotite.with_atom_name "CA" ref_structure))
                    (length (biotite.with_atom_name "CA" gen_structure))) in *.
  set (ref_ca := firstn n (biotite.with_atom_name "CA" ref_structure)) in *.
  set (gen_ca := firstn n (biotite.with_atom_name "CA" gen_structure)) in *.
  destruct (rmsd_same_length ref_ca gen_ca) as [before Hb]; [congruence|].
  destruct (superimpose_same_length svd_rotation ref_ca gen_ca)
    as (fit & t & Hs & Hfit); [congruence|].
  destruct (rmsd_same_length ref_ca fit) as [after Ha].
  { rewrite Hfit, length_apply. congruence. }
  exists before, fit, t, after.
  rewrite Hb, Hs, Ha. repeat split; reflexivity.
Qed.

Example ca_atoms_truncates :
  Lab3.ca_atoms Examples.ref_structure Examples.gen_structure
  = ([Examples.atom "CA" 1 1 0 0], [Examples.atom "CA" 1 1 1 0]).
Proof. reflexivity. Qed.

(** *** No alpha carbon *)

Lemma ca_atoms_empty (ref_structure gen_structure : biotite.AtomArray) :
  biotite.with_atom_name "CA" ref_structure = [] \/
  biotite.with_atom_name "CA" gen_structure = [] ->
  Lab3.ca_atoms ref_structure gen_structure = ([], []).
Proof.
  intros [H | H]; unfold Lab3.ca_atoms; rewrite H; simpl.
  - reflexivity.
  - rewrite Nat.min_0_r. reflexivity.
Qed.

Lemma rmsd_nil : biotite.rmsd [] [] = Ok np.NaN.
Proof.
  unfold biotite.rmsd. simpl. rewrite mean_nil. reflexivity.
Qed.

Lemma superimpose_nil svd_rotation :
  biotite.superimpose svd_rotation [] []
  = Ok ([], {| biotite.center_translation := biotite.nan3;
               biotite.rotation := svd_rotation [] [];
               biotite.target_translation := biotite.nan3 |}).
Proof.
  unfold biotite.superimpose, biotite.centroid. simpl.
  rewrite mean_nil. reflexivity.
Qed.

(** C5, as the code has it.  When either structure has no atom named
    "CA" the turn of the loop raises nothing: both subsets are cut to
    length 0, the RMSD before and after superposition are NaN, and the
    dict of the candidate is overwritten with a transformation whose
    translations are NaN and with [rmsd = NaN]. *)
Theorem C5_empty_ca_scores_NaN svd_rotation
    (ref_structure gen_structure : biotite.AtomArray) (s : Lab3.Structure) :
  biotite.with_atom_name "CA" ref_structure = [] \/
  biotite.with_atom_name "CA" gen_structure = [] ->
  Lab3.score_structure svd_rotation ref_structure gen_structure s
  = (Lab3.set_rmsd
       (Lab3.set_transform s
          {| biotite.center_translation := biotite.nan3;
             biotite.rotation := svd_rotation [] [];
             biotite.target_translation := biotite.nan3 |})
       np.NaN,
     Ok {| Lab3.min_len := 0;
           Lab3.rmsd_before := np.NaN;
           Lab3.rmsd_after := np.NaN |}).
Proof.
  intros H. pose proof (ca_atoms_empty _ _ H) as E.
  unfold Lab3.ca_atoms in E. injection E as E1 E2.
  assert (E0 : Nat.min (length (biotite.with_atom_name "CA" ref_structure))
                       (length (biotite.with_atom_name "CA" gen_structure)) = 0%nat)
    by (destruct H as [-> | ->]; simpl; auto using Nat.min_0_r).
  unfold Lab3.score_structure.
  rewrite E1, E2, rmsd_nil, superimpose_nil, rmsd_nil, E0.
  reflexivity.
Qed.

Lemma C5_witness :
  snd (Lab3.score_structure Examples.no_rotation Examples.ref_structure
         Examples.gen_no_ca Examples.structure_1)
  = Ok {| Lab3.min_len := 0;
          Lab3.rmsd_before := np.NaN;
          Lab3.rmsd_after := np.NaN |}.
Proof.
  rewrite (C5_empty_ca_scores_NaN Examples.no_rotation Examples.ref_structure
             Examples.gen_no_ca Examples.structure_1 (or_intror eq_refl)).
  reflexivity.
Defined.

(** C5, as the spec has it, fails: the prediction [gen_no_ca] has no
    alpha carbon, yet the turn ends without an error, and the dict of the
    candidate, whose [rmsd] and [transform] were None, now holds both. *)
Lemma C5_counterexample :
  biotite.with_atom_name "CA" Examples.gen_no_ca = [] /\
  snd (Lab3.score_structure Examples.no_rotation Examples.ref_structure
         Examples.gen_no_ca Examples.structure_1)
  = Ok {| Lab3.min_len := 0;
          Lab3.rmsd_before := np.NaN;
          Lab3.rmsd_after := np.NaN |} /\
  Lab3.rmsd (fst (Lab3.score_structure Examples.no_rotation Examples.ref_structure
                    Examples.gen_no_ca Examples.structure_1))
  = Some np.NaN /\
  Lab3.transform (fst (Lab3.score_structure Examples.no_rotation
                         Examples.ref_structure Examples.gen_no_ca
                         Examples.structure_1))
  <> Lab3.transform Examples.structure_1.
Proof.
  split; [reflexivity|].
  unfold Lab3.score_structure.
  change (biotite.with_atom_name "CA" Examples.gen_no_ca) with (@nil biotite.Atom).
  cbn [length Nat.min firstn].
  rewrite Nat.min_0_r. cbn [firstn].
  rewrite rmsd_nil, superimpose_nil, rmsd_nil. cbn.
  repeat split. discriminate.
Qed.

(** ** Sorting *)

Lemma float_leb_le (a b : np.float64) :
  pd.float_leb a b = true <-> pd.float_le a b.
Proof.
  destruct a as [x|[|]|], b as [y|[|]|]; simpl; try tauto;
    try (split; [discriminate|contradiction]).
  destruct (Rle_dec x y); split; auto; discriminate.
Qed.

Lemma float_le_total (a b : np.float64) :
  np.isnan a = false -> np.isnan b = false ->
  pd.float_le a b \/ pd.float_le b a.
Proof.
  destruct a as [x|[|]|], b as [y|[|]|]; simpl; try discriminate; auto.
  intros _ _. destruct (Rle_dec x y); [left; assumption|right; lra].
Qed.

Lemma float_le_trans (a b c : np.float64) :
  pd.float_le a b -> pd.float_le b c -> pd.float_le a c.
Proof.
  destruct a as [x|[|]|], b as [y|[|]|], c as [z|[|]|]; simpl;
    try tauto; try lra.
Qed.

Lemma float_le_refl (a : np.float64) :
  np.isnan a = false -> pd.float_le a a.
Proof. destruct a as [x|[|]|]; simpl; try discriminate; auto; lra. Qed.

Lemma key_leb_le (r1 r2 : pd.Row) :
  pd.key_leb r1 r2 = true <-> pd.key_le r1 r2.
Proof.
  unfold pd.key_leb, pd.key_le.
  destruct (pd.score r1), (pd.score r2);
    try (split; [discriminate|contradiction]).
  apply float_leb_le.
Qed.

Lemma row_notna_score (r : pd.Row) :
  pd.row_notna r = true ->
  exists a, pd.score r = pd.CFloat a /\ np.isnan a = false.
Proof.
  unfold pd.row_notna, pd.isna.
  destruct (pd.score r) as [[x|s|]|]; try discriminate; eauto.
Qed.

Lemma key_le_notna (r1 r2 : pd.Row) :
  pd.key_le r1 r2 -> pd.row_notna r1 = true /\ pd.row_notna r2 = true.
Proof.
  unfold pd.key_le, pd.row_notna, pd.isna.
  destruct (pd.score r1) as [[x|[|]|]|], (pd.score r2) as [[y|[|]|]|];
    simpl; tauto.
Qed.

Lemma key_le_total (r1 r2 : pd.Row) :
  pd.row_notna r1 = true -> pd.row_notna r2 = true ->
  pd.key_le r1 r2 \/ pd.key_le r2 r1.
Proof.
  intros H1 H2.
  destruct (row_notna_score r1 H1) as (a & Ea & Na).
  destruct (row_notna_score r2 H2) as (b & Eb & Nb).
  unfold pd.key_le. rewrite Ea, Eb. now apply float_le_total.
Qed.

Lemma key_le_trans (r1 r2 r3 : pd.Row) :
  pd.key_le r1 r2 -> pd.key_le r2 r3 -> pd.key_le r1 r3.
Proof.
  unfold pd.key_le.
  destruct (pd.score r1), (pd.score r2), (pd.score r3); try tauto.
  apply float_le_trans.
Qed.

Lemma key_le_refl (r : pd.Row) : pd.row_notna r = true -> pd.key_le r r.
Proof.
  intros H. destruct (row_notna_score r H) as (a & Ea & Na).
  unfold pd.key_le. rewrite Ea. now apply float_le_refl.
Qed.

Lemma insert_perm (r : pd.Row) (l : list pd.Row) :
  Permutation (r :: l) (pd.insert r l).
Proof.
  induction l as [|x l IH]; simpl; [reflexivity|].
  destruct (pd.key_leb r x); [reflexivity|].
  rewrite perm_swap. now constructor.
Qed.

Lemma insert_sorted (r : pd.Row) (l : list pd.Row) :
  pd.row_notna r = true -> Forall (fun x => pd.row_notna x = true) l ->
  Sorted pd.key_le l -> Sorted pd.key_le (pd.insert r l).
Proof.
  intros Hr Hall Hs. induction l as [|x l IH]; simpl.
  - repeat constructor.
  - destruct (pd.key_leb r x) eqn:E.
    + constructor; [assumption|]. constructor. now apply key_leb_le.
    + inversion Hs as [|? ? Hs' Hd]; subst. inversion Hall as [|? ? Hx Hall']; subst.
      constructor; [auto|].
      assert (Hxr : pd.key_le x r).
      { destruct (key_le_total r x Hr Hx) as [H|H]; [|assumption].
        apply key_leb_le in H. congruence. }
      destruct l as [|y l]; simpl.
      * constructor. assumption.
      * destruct (pd.key_leb r y); constructor; [assumption|].
        now inversion Hd.
Qed.

Lemma sort_perm (l : list pd.Row) : Permutation (fold_right pd.insert [] l) l.
Proof.
  induction l as [|x l IH]; simpl; [reflexivity|].
  rewrite <- insert_perm. now constructor.
Qed.

Lemma sort_sorted (l : list pd.Row) :
  Forall (fun x => pd.row_notna x = true) l ->
  Sorted pd.key_le (fold_right pd.insert [] l).
Proof.
  induction 1 as [|x l Hx Hall IH]; simpl; [constructor|].
  apply insert_sorted; [assumption| |assumption].
  eapply Permutation_Forall; [symmetry; apply sort_perm|assumption].
Qed.

Lemma filter_all {A : Type} (f : A -> bool) (l : list A) :
  Forall (fun x => f x = true) (filter f l).
Proof. apply Forall_forall. intros x H. now apply filter_In in H. Qed.

(** [sort_values] has an outcome on every frame. *)
Lemma sort_values_stable_sort (df : pd.DataFrame) :
  pd.sort_values df (pd.stable_sort df).
Proof.
  unfold pd.stable_sort. constructor.
  - apply sort_perm.
  - apply sort_sorted, filter_all.
Qed.

Lemma filter_split_perm {A : Type} (f : A -> bool) (l : list A) :
  Permutation (filter f l ++ filter (fun x => negb (f x)) l) l.
Proof.
  induction l as [|x l IH]; simpl; [reflexivity|].
  destruct (f x); simpl.
  - now constructor.
  - rewrite <- Permutation_middle. now constructor.
Qed.

Lemma row_isna_notna (r : pd.Row) : pd.row_isna r = negb (pd.row_notna r).
Proof. unfold pd.row_isna, pd.row_notna. now rewrite negb_involutive. Qed.

Lemma notna_isna_perm (df : pd.DataFrame) :
  Permutation (filter pd.row_notna df ++ filter pd.row_isna df) df.
Proof.
  rewrite (filter_ext pd.row_isna (fun x => negb (pd.row_notna x)))
    by apply row_isna_notna.
  apply filter_split_perm.
Qed.

(** Every outcome of [sort_values] is a rearrangement of the frame. *)
Lemma sort_values_perm (df sorted : pd.DataFrame) :
  pd.sort_values df sorted -> Permutation sorted df.
Proof.
  intros [s Hp Hs]. rewrite Hp. apply notna_isna_perm.
Qed.

Lemma ascending_trans (r1 r2 r3 : pd.Row) :
  Selection.ascending r1 r2 -> Selection.ascending r2 r3 ->
  Selection.ascending r1 r3.
Proof.
  unfold Selection.ascending. intros H12 [H3 | H23]; [left; assumption|].
  right. destruct H12 as [N2 | H12].
  - apply key_le_notna in H23. destruct H23 as [H2 _].
    rewrite row_isna_notna, H2 in N2. discriminate.
  - eapply key_le_trans; eassumption.
Qed.

Lemma sorted_app_na (s nas : list pd.Row) :
  Sorted pd.key_le s -> Forall (fun r => pd.row_isna r = true) nas ->
  Sorted Selection.ascending (s ++ nas).
Proof.
  intros Hs Hn.
  assert (Hnas : Sorted Selection.ascending nas).
  { induction Hn as [|x l Hx Hl IH]; constructor; [assumption|].
    destruct Hl; constructor. left. assumption. }
  induction Hs as [|x l Hl IH Hd]; simpl; [assumption|].
  constructor; [assumption|].
  destruct l as [|y l]; simpl.
  - destruct Hn; constructor. left. assumption.
  - constructor. right. now inversion Hd.
Qed.

(** Every outcome of [sort_values] is in ascending order, missing keys
    last. *)
Lemma sort_values_ascending (df sorted : pd.DataFrame) :
  pd.sort_values df sorted -> StronglySorted Selection.ascending sorted.
Proof.
  intros [s Hp Hs]. apply Sorted_StronglySorted.
  - intros a b c. apply ascending_trans.
  - apply sorted_app_na; [assumption|apply filter_all].
Qed.

(** ** Top-K selection *)

Lemma select_top_k_empty (k : nat) (r : pyresult (pd.DataFrame * pd.DataFrame)) :
  Selection.select_top_k k [] r -> r = Raise KeyError.
Proof.
  intros H. inversion H as [e He | df sorted Hdf _]; simpl in *.
  - congruence.
  - discriminate.
Qed.

Lemma select_top_k_nonempty (k : nat) (rows : list pd.Row)
    (r : pyresult (pd.DataFrame * pd.DataFrame)) :
  rows <> [] -> Selection.select_top_k k rows r ->
  exists sorted, pd.sort_values rows sorted /\ r = Ok (sorted, firstn k sorted).
Proof.
  intros Hne H. destruct rows as [|x rows]; [contradiction|].
  inversion H as [e He | df sorted Hdf Hs]; simpl in *; [discriminate|].
  injection Hdf as <-. eauto.
Qed.

Lemma select_top_k_total (k : nat) (rows : list pd.Row) :
  rows <> [] ->
  Selection.select_top_k k rows
    (Ok (pd.stable_sort rows, pd.head k (pd.stable_sort rows))).
Proof.
  intros Hne. apply Selection.select_ok with (df := rows).
  - destruct rows; [contradiction|reflexivity].
  - apply sort_values_stable_sort.
Qed.

Lemma strongly_sorted_split {A : Type} (R : A -> A -> Prop) (k : nat) (l : list A) :
  StronglySorted R l ->
  forall a b, In a (firstn k l) -> In b (skipn k l) -> R a b.
Proof.
  intros Hs. revert k. induction Hs as [|x l Hs IH Hall]; intros k a b Ha Hb.
  - rewrite firstn_nil in Ha. contradiction.
  - destruct k as [|k]; simpl in *; [contradiction|].
    destruct Ha as [<- | Ha].
    + rewrite Forall_forall in Hall. apply Hall.
      rewrite <- (firstn_skipn k l). apply in_or_app. now right.
    + eapply IH; eassumption.
Qed.

(** C6, as the code has it.  On a frame of N >= 1 candidates the
    selection sorts ascending by score (a missing score last) and returns
    the first k rows of that order, min(k, N) of them; with k >= N it
    returns all N candidates in ascending order.  Each returned candidate
    ranks at or before each one left out.  Nothing is raised. *)
Theorem C6_top_k_is_sorted_prefix (k : nat) (rows : list pd.Row) :
  rows <> [] ->
  (exists sorted top, Selection.select_top_k k rows (Ok (sorted, top))) /\
  (forall r, Selection.select_top_k k rows r ->
     exists sorted,
       r = Ok (sorted, firstn k sorted) /\
       Permutation sorted rows /\
       StronglySorted Selection.ascending sorted /\
       length (firstn k sorted) = Nat.min k (length rows) /\
       (length rows <= k -> firstn k sorted = sorted)%nat /\
       (forall a b, In a (firstn k sorted) -> In b (skipn k sorted) ->
                    Selection.ascending a b)).
Proof.
  intros Hne. split.
  - eexists _, _. apply select_top_k_total. exact Hne.
  - intros r H.
    destruct (select_top_k_nonempty k rows r Hne H) as (sorted & Hs & ->).
    pose proof (sort_values_perm _ _ Hs) as Hp.
    pose proof (sort_values_ascending _ _ Hs) as Ha.
    exists sorted. repeat split; try assumption.
    + rewrite length_firstn, (Permutation_length Hp). reflexivity.
    + intros Hk. apply firstn_all2. now rewrite (Permutation_length Hp).
    + now apply strongly_sorted_split.
Qed.

Lemma C6_witness :
  exists sorted top,
    Selection.select_top_k 5 [Examples.cand_a; Examples.cand_b] (Ok (sorted, top)).
Proof.
  refine (proj1 (C6_top_k_is_sorted_prefix 5 [Examples.cand_a; Examples.cand_b] _)).
  discriminate.
Defined.

(** C6, as the spec has it, fails for N = 0: [pd.DataFrame([])] has no
    column, [set_index('prompt_id')] raises KeyError, and no selection is
    returned. *)
Lemma C6_counterexample :
  Lab2.rows_of [] = [] /\
  Selection.select_top_k 5 [] (Raise KeyError) /\
  ~ (exists res, Selection.select_top_k 5 [] (Ok res)).
Proof.
  split; [reflexivity|]. split.
  - constructor. reflexivity.
  - intros [res H]. apply select_top_k_empty in H. discriminate.
Qed.

(** *** Equal scores *)

Lemma float_eqb_eq (a b : np.float64) : pd.float_eqb a b = true -> a = b.
Proof.
  destruct a as [x|s|], b as [y|t|]; simpl; try discriminate; auto.
  - destruct (Req_EM_T x y); [congruence|discriminate].
  - intros H. apply Bool.eqb_prop in H. congruence.
Qed.

Lemma cell_eqb_eq (c d : pd.cell) : pd.cell_eqb c d = true -> c = d.
Proof.
  destruct c as [a|], d as [b|]; simpl; try discriminate; auto.
  intros H. apply float_eqb_eq in H. congruence.
Qed.

Lemma filter_filter_incl {A : Type} (f g : A -> bool) (l : list A) :
  (forall x, f x = true -> g x = true) ->
  filter f (filter g l) = filter f l.
Proof.
  intros H. induction l as [|x l IH]; simpl; [reflexivity|].
  destruct (g x) eqn:G; simpl.
  - now rewrite IH.
  - destruct (f x) eqn:F; [|assumption].
    apply H in F. congruence.
Qed.

Lemma filter_none {A : Type} (f : A -> bool) (l : list A) :
  Forall (fun x => f x = false) l -> filter f l = [].
Proof.
  induction 1 as [|x l Hx _ IH]; simpl; [reflexivity|]. now rewrite Hx.
Qed.

Lemma same_score_isna (c : pd.cell) (r : pd.Row) :
  pd.cell_eqb c (pd.score r) = true -> pd.row_isna r = pd.isna c.
Proof.
  intros H. apply cell_eqb_eq in H. unfold pd.row_isna. now rewrite H.
Qed.

(** Insertion puts a row in front of the rows of the same score. *)
Lemma with_score_insert (c : pd.cell) (r : pd.Row) (l : list pd.Row) :
  pd.row_notna r = true ->
  pd.with_score c (pd.insert r l) = pd.with_score c (r :: l).
Proof.
  intros Hr. induction l as [|x l IH]; [reflexivity|].
  simpl pd.insert. destruct (pd.key_leb r x) eqn:E; [reflexivity|].
  unfold pd.with_score in *. simpl in *. rewrite IH.
  destruct (pd.cell_eqb c (pd.score r)) eqn:Er;
    destruct (pd.cell_eqb c (pd.score x)) eqn:Ex; try reflexivity.
  exfalso.
  apply cell_eqb_eq in Er, Ex.
  assert (Hk : pd.key_le r x).
  { pose proof (key_le_refl r Hr) as H. unfold pd.key_le in *.
    rewrite <- Ex, Er. exact H. }
  apply key_leb_le in Hk. congruence.
Qed.

Lemma with_score_sort (c : pd.cell) (l : list pd.Row) :
  Forall (fun x => pd.row_notna x = true) l ->
  pd.with_score c (fold_right pd.insert [] l) = pd.with_score c l.
Proof.
  induction 1 as [|x l Hx _ IH]; [reflexivity|].
  simpl fold_right. rewrite with_score_insert by assumption.
  unfold pd.with_score in *. simpl. now rewrite IH.
Qed.

Lemma with_score_app (c : pd.cell) (l1 l2 : list pd.Row) :
  pd.with_score c (l1 ++ l2) = pd.with_score c l1 ++ pd.with_score c l2.
Proof. apply filter_app. Qed.

Lemma with_score_parts (c : pd.cell) (df : pd.DataFrame) :
  pd.with_score c (filter pd.row_notna df) ++ pd.with_score c (filter pd.row_isna df)
  = pd.with_score c df.
Proof.
  unfold pd.with_score. destruct (pd.isna c) eqn:Ec.
  - rewrite (filter_filter_incl _ pd.row_isna).
    + rewrite filter_none; [reflexivity|].
      apply Forall_forall. intros x Hx. apply filter_In in Hx.
      destruct (pd.cell_eqb c (pd.score x)) eqn:E; [|reflexivity].
      apply same_score_isna in E. destruct Hx as [_ Hx].
      unfold pd.row_notna, pd.row_isna in *. rewrite E, Ec in Hx. discriminate.
    + intros x E. apply same_score_isna in E. congruence.
  - rewrite (filter_filter_incl _ pd.row_notna).
    + rewrite (filter_none _ (filter pd.row_isna df)); [apply app_nil_r|].
      apply Forall_forall. intros x Hx. apply filter_In in Hx.
      destruct (pd.cell_eqb c (pd.score x)) eqn:E; [|reflexivity].
      apply same_score_isna in E. destruct Hx as [_ Hx]. congruence.
    + intros x E. apply same_score_isna in E.
      unfold pd.row_notna, pd.row_isna in *. now rewrite E, Ec.
Qed.

(** [stable_sort] keeps the rows of one score in their input order. *)
Lemma stable_sort_stable (c : pd.cell) (df : pd.DataFrame) :
  pd.with_score c (pd.stable_sort df) = pd.with_score c df.
Proof.
  unfold pd.stable_sort. rewrite with_score_app.
  rewrite with_score_sort by apply filter_all.
  apply with_score_parts.
Qed.

(** In every outcome the rows without a score keep their input order. *)
Lemma sort_values_na_order (c : pd.cell) (df sorted : pd.DataFrame) :
  pd.isna c = true -> pd.sort_values df sorted ->
  pd.with_score c sorted = pd.with_score c df.
Proof.
  intros Hc [s Hp Hs]. rewrite with_score_app, <- (with_score_parts c df).
  f_equal. unfold pd.with_score.
  assert (Hnone : forall l, Forall (fun x => pd.row_notna x = true) l ->
                            filter (fun r => pd.cell_eqb c (pd.score r)) l = []).
  { intros l Hl. apply filter_none. eapply Forall_impl; [|exact Hl].
    intros x Hx. simpl in Hx.
    destruct (pd.cell_eqb c (pd.score x)) eqn:E; [|reflexivity].
    apply same_score_isna in E.
    unfold pd.row_notna, pd.row_isna in *. rewrite E, Hc in Hx. discriminate. }
  rewrite (Hnone s), (Hnone (filter pd.row_notna df)); auto using filter_all.
  eapply Permutation_Forall; [symmetry; exact Hp|apply filter_all].
Qed.

(** C7, as the code has it.  On a non-empty frame the selection returns
    the first k rows of an ascending arrangement of the candidates.  The
    arrangement that keeps candidates of one score in their input order
    is an outcome of [sort_values], but the default sort kind does not
    promise it: every ascending arrangement is one.  In each outcome only
    the candidates whose score is missing keep their input order. *)
Theorem C7_order_of_equal_scores (k : nat) (rows : list pd.Row) :
  rows <> [] ->
  Selection.select_top_k k rows
    (Ok (pd.stable_sort rows, pd.head k (pd.stable_sort rows))) /\
  (forall c, pd.with_score c (pd.stable_sort rows) = pd.with_score c rows) /\
  (forall sorted top,
     Selection.select_top_k k rows (Ok (sorted, top)) ->
     top = firstn k sorted /\
     StronglySorted Selection.ascending sorted /\
     Permutation sorted rows /\
     (forall c, pd.isna c = true ->
                pd.with_score c sorted = pd.with_score c rows)) /\
  (forall s,
     Permutation s (filter pd.row_notna rows) -> Sorted pd.key_le s ->
     Selection.select_top_k k rows
       (Ok (s ++ filter pd.row_isna rows,
            pd.head k (s ++ filter pd.row_isna rows)))).
Proof.
  intros Hne. split; [now apply select_top_k_total|].
  split; [intros c; apply stable_sort_stable|]. split.
  - intros sorted top H.
    destruct (select_top_k_nonempty k rows _ Hne H) as (sorted' & Hs & E).
    injection E as <- ->.
    repeat split.
    + apply (sort_values_ascending rows). exact Hs.
    + apply sort_values_perm. exact Hs.
    + intros c Hc. now apply sort_values_na_order.
  - intros s Hp Hs. apply Selection.select_ok with (df := rows).
    + destruct rows; [contradiction|reflexivity].
    + now constructor.
Qed.

Lemma C7_witness :
  Selection.select_top_k 5 [Examples.cand_a; Examples.cand_b]
    (Ok (pd.stable_sort [Examples.cand_a; Examples.cand_b],
         pd.head 5 (pd.stable_sort [Examples.cand_a; Examples.cand_b]))).
Proof.
  refine (proj1 (C7_order_of_equal_scores 5 [Examples.cand_a; Examples.cand_b] _)).
  discriminate.
Defined.

Lemma sorted_same_score (a : np.float64) (l : list pd.Row) :
  np.isnan a = false ->
  Forall (fun r => pd.score r = pd.CFloat a) l -> Sorted pd.key_le l.
Proof.
  intros Ha. induction 1 as [|x l Hx Hl IH]; constructor; [assumption|].
  destruct Hl as [|y l Hy _]; constructor.
  unfold pd.key_le. rewrite Hx, Hy. now apply float_le_refl.
Qed.

Lemma tied_score (l : list nat) :
  Forall (fun r => pd.score r = pd.CFloat (np.Fin (1 / 2)))
         (map Examples.tied l).
Proof. apply Forall_map, Forall_forall. intros i _. reflexivity. Qed.

Lemma tied_distinct (i j : nat) :
  (i < 18)%nat -> (j < 18)%nat -> Examples.tied i = Examples.tied j -> i = j.
Proof.
  intros Hi Hj E. apply (f_equal pd.prompt_id) in E.
  do 18 (destruct i as [|i]; [do 18 (destruct j as [|j];
                                     [first [reflexivity|discriminate E]|]); lia|]).
  lia.
Qed.

(** C7, as the spec has it, fails.  The eighteen rows carry one score;
    the quicksorted arrangement is an outcome of [sort_values]; its first
    five rows are "a", "p", "o", "n", "m".  Row "m" is before row "p" in
    the input and after it in the selection (and "b" .. "e", which a
    stable sort would return, are not selected). *)
Lemma C7_counterexample :
  Forall (fun r => pd.score r = pd.CFloat (np.Fin (1 / 2))) Examples.tied_rows /\
  Selection.select_top_k 5 Examples.tied_rows
    (Ok (Examples.tied_quicksorted,
         [Examples.tied 0; Examples.tied 15; Examples.tied 14;
          Examples.tied 13; Examples.tied 12])) /\
  Selection.precedes (Examples.tied 12) (Examples.tied 15) Examples.tied_rows /\
  ~ Selection.precedes (Examples.tied 12) (Examples.tied 15)
      [Examples.tied 0; Examples.tied 15; Examples.tied 14;
       Examples.tied 13; Examples.tied 12].
Proof.
  split; [apply tied_score|]. split; [|split].
  - change [Examples.tied 0; Examples.tied 15; Examples.tied 14;
            Examples.tied 13; Examples.tied 12]
      with (pd.head 5 Examples.tied_quicksorted).
    apply Selection.select_ok with (df := Examples.tied_rows); [reflexivity|].
    rewrite <- (app_nil_r Examples.tied_quicksorted).
    change (@nil pd.Row) with (filter pd.row_isna Examples.tied_rows).
    constructor.
    + change (filter pd.row_notna Examples.tied_rows)
        with (Examples.tied 0 :: map Examples.tied (seq 1 15)
                ++ [Examples.tied 16; Examples.tied 17]).
      unfold Examples.tied_quicksorted. apply perm_skip.
      apply Permutation_app_tail. symmetry. apply Permutation_rev.
    + apply (sorted_same_score (np.Fin (1 / 2))); [reflexivity|].
      change Examples.tied_quicksorted
        with (map Examples.tied [0; 15; 14; 13; 12; 11; 10; 9; 8; 7; 6; 5; 4;
                                 3; 2; 1; 16; 17]%nat).
      apply tied_score.
  - exists (map Examples.tied (seq 0 12)), (map Examples.tied (seq 13 2)),
           (map Examples.tied (seq 16 2)).
    reflexivity.
  - intros (l1 & l2 & l3 & E).
    assert (D : forall i, (i < 18)%nat -> i <> 12%nat ->
                          Examples.tied i <> Examples.tied 12).
    { intros i Hi Hn Ei. apply tied_distinct in Ei; lia. }
    assert (step : forall (a : pd.Row) l r,
               a <> Examples.tied 12 ->
               a :: l = r ++ Examples.tied 12 :: l2 ++ Examples.tied 15 :: l3 ->
               exists r', r = a :: r' /\
                          l = r' ++ Examples.tied 12 :: l2 ++ Examples.tied 15 :: l3).
    { intros a l r Ha Er. destruct r as [|y r]; cbn [app] in Er.
      - apply (f_equal (hd a)) in Er. cbn [hd] in Er. contradiction.
      - exists r. split.
        + f_equal. apply (f_equal (hd a)) in Er. cbn [hd] in Er. congruence.
        + apply (f_equal (@tl pd.Row)) in Er. exact Er. }
    apply step in E; [|apply D; lia]. destruct E as (r1 & _ & E).
    apply step in E; [|apply D; lia]. destruct E as (r2 & _ & E).
    apply step in E; [|apply D; lia]. destruct E as (r3 & _ & E).
    apply step in E; [|apply D; lia]. destruct E as (r4 & _ & E).
    apply (f_equal (@length pd.Row)) in E.
    rewrite length_app in E. cbn [length] in E.
    rewrite length_app in E. cbn [length] in E. lia.
Qed.

(** *** Candidates without a score *)

Lemma in_firstn {A : Type} (n : nat) (l : list A) (x : A) :
  In x (firstn n l) -> In x l.
Proof.
  intros H. rewrite <- (firstn_skipn n l). apply in_or_app. now left.
Qed.

(** C8, as the code has it.  The selection neither drops a candidate
    without a score nor raises for it.  On a non-empty frame it returns
    the first k rows of: the scored candidates in ascending order, then
    the unscored ones in input order.  So an unscored candidate is
    returned exactly when fewer than k candidates carry a score and it is
    among the first k minus that many unscored ones. *)
Theorem C8_unscored_candidates_follow (k : nat) (rows : list pd.Row) :
  rows <> [] ->
  (exists sorted top, Selection.select_top_k k rows (Ok (sorted, top))) /\
  (forall e, ~ Selection.select_top_k k rows (Raise e)) /\
  (forall sorted top,
     Selection.select_top_k k rows (Ok (sorted, top)) ->
     (exists s,
        Permutation s (filter pd.row_notna rows) /\
        Sorted pd.key_le s /\
        top = firstn k s
              ++ firstn (k - length (filter pd.row_notna rows))
                        (filter pd.row_isna rows)) /\
     (k <= length (filter pd.row_notna rows) ->
      Forall (fun r => pd.row_notna r = true) top)%nat /\
     (forall r,
        In r (firstn (k - length (filter pd.row_notna rows))
                     (filter pd.row_isna rows)) ->
        In r top /\ pd.row_isna r = true)).
Proof.
  intros Hne. split; [|split].
  - eexists _, _. apply select_top_k_total. exact Hne.
  - intros e H. destruct (select_top_k_nonempty k rows _ Hne H) as (x & _ & E).
    discriminate.
  - intros sorted top H.
    destruct (select_top_k_nonempty k rows _ Hne H) as (sorted' & Hs & E).
    injection E as <- ->. destruct Hs as [s Hp Hs].
    pose proof (Permutation_length Hp) as Hlen.
    assert (Htop : firstn k (s ++ filter pd.row_isna rows)
                   = firstn k s
                     ++ firstn (k - length (filter pd.row_notna rows))
                               (filter pd.row_isna rows))
      by (rewrite firstn_app, Hlen; reflexivity).
    rewrite Htop. split; [exists s; auto|]. split.
    + intros Hk.
      replace (k - length (filter pd.row_notna rows))%nat with 0%nat by lia.
      rewrite firstn_0, app_nil_r.
      apply Forall_forall. intros r Hr.
      assert (Hin : In r (filter pd.row_notna rows)).
      { eapply Permutation_in; [exact Hp|]. eapply in_firstn; eauto. }
      now apply filter_In in Hin.
    + intros r Hr. split; [apply in_or_app; now right|].
      assert (Hin : In r (filter pd.row_isna rows))
        by (eapply in_firstn; eauto).
      now apply filter_In in Hin.
Qed.

Lemma rows_of_examples :
  Lab2.rows_of Examples.gen_sequences
  = [Examples.row "g1" (pd.CFloat (np.Fin (3 / 10)));
     Examples.row "g2" (pd.CFloat np.NaN);
     Examples.row "g3" (pd.CFloat (np.Fin (1 / 10)))].
Proof. reflexivity. Qed.

Lemma C8_witness :
  ~ (exists e, Selection.select_top_k 5 (Lab2.rows_of Examples.gen_sequences)
                 (Raise e)).
Proof.
  intros [e H].
  refine (proj1 (proj2 (C8_unscored_candidates_follow 5
                          (Lab2.rows_of Examples.gen_sequences) _)) e H).
  rewrite rows_of_examples. discriminate.
Defined.

(** C8, as the spec has it, fails: [g2] carries no score, the selection
    of five raises nothing, and every outcome returns the row of [g2]. *)
Lemma C8_counterexample :
  Lab2.distance Examples.g2 = None /\
  (exists sorted top,
     Selection.select_top_k 5 (Lab2.rows_of Examples.gen_sequences)
       (Ok (sorted, top))) /\
  ~ (exists e, Selection.select_top_k 5 (Lab2.rows_of Examples.gen_sequences)
                 (Raise e)) /\
  (forall sorted top,
     Selection.select_top_k 5 (Lab2.rows_of Examples.gen_sequences)
       (Ok (sorted, top)) ->
     exists r, In r top /\ pd.prompt_id r = Lab2.prompt_id Examples.g2 /\
               pd.row_isna r = true).
Proof.
  assert (Hne : Lab2.rows_of Examples.gen_sequences <> [])
    by (rewrite rows_of_examples; discriminate).
  split; [reflexivity|]. split; [|split].
  - eexists _, _. apply select_top_k_total. exact Hne.
  - intros [e H].
    destruct (select_top_k_nonempty 5 _ _ Hne H) as (x & _ & E). discriminate.
  - intros sorted top H.
    destruct (select_top_k_nonempty 5 _ _ Hne H) as (sorted' & Hs & E).
    assert (E1 : sorted = sorted') by congruence.
    assert (E2 : top = firstn 5 sorted') by congruence.
    subst sorted top. clear E.
    pose proof (sort_values_perm _ _ Hs) as Hp.
    exists (Examples.row "g2" (pd.CFloat np.NaN)).
    split; [|split; reflexivity].
    rewrite firstn_all2.
    + eapply Permutation_in; [symmetry; exact Hp|].
      rewrite rows_of_examples. simpl. auto.
    + rewrite (Permutation_length Hp), rows_of_examples. simpl. lia.
Qed.

(** ** The records written to the FASTA file *)

Lemma score_column_cells (l : list (option np.float64)) :
  Forall2 pd.cell_of l (pd.score_column l).
Proof.
  unfold pd.score_column. destruct (forallb pd.is_None l) eqn:E.
  - rewrite forallb_forall in E.
    induction l as [|o l IH]; simpl; constructor.
    + assert (H : pd.is_None o = true) by (apply E; now left).
      destruct o; [discriminate|]. now left.
    + apply IH. intros x Hx. apply E. now right.
  - clear E. induction l as [|o l IH]; simpl; constructor; [|exact IH].
    destruct o; simpl; auto.
Qed.

Lemma Forall2_map_left {A B C : Type} (R : B -> C -> Prop) (f : A -> B)
    (l : list A) (l' : list C) :
  Forall2 R (map f l) l' -> Forall2 (fun x y => R (f x) y) l l'.
Proof.
  revert l'. induction l as [|x l IH]; intros l' H; inversion H; subst;
    constructor; auto.
Qed.

Lemma combine_Forall2_In {A B : Type} (R : A -> B -> Prop)
    (l1 : list A) (l2 : list B) (a : A) (b : B) :
  Forall2 R l1 l2 -> In (a, b) (combine l1 l2) -> In a l1 /\ R a b.
Proof.
  induction 1 as [|x y l1 l2 Hxy _ IH]; simpl; [contradiction|].
  intros [E | H].
  - injection E as <- <-. auto.
  - destruct (IH H). auto.
Qed.

Lemma lab2_rows_of_In (gen_sequences : list Lab2.GenSeq) (r : pd.Row) :
  In r (Lab2.rows_of gen_sequences) ->
  exists g, In g gen_sequences /\
            pd.prompt_id r = Lab2.prompt_id g /\
            pd.sequence r = Lab2.sequence g /\
            pd.description r = Lab2.description g /\
            pd.cell_of (Lab2.distance g) (pd.score r).
Proof.
  unfold Lab2.rows_of. rewrite in_map_iff. intros ([g c] & <- & Hin).
  apply (combine_Forall2_In (fun g c => pd.cell_of (Lab2.distance g) c)) in Hin.
  - destruct Hin as [Hg Hc]. exists g. simpl. auto.
  - apply Forall2_map_left, score_column_cells.
Qed.

Lemma score_column_length (l : list (option np.float64)) :
  length (pd.score_column l) = length l.
Proof.
  unfold pd.score_column. destruct (forallb pd.is_None l); apply length_map.
Qed.

Lemma lab2_rows_of_length (gen_sequences : list Lab2.GenSeq) :
  length (Lab2.rows_of gen_sequences) = length gen_sequences.
Proof.
  unfold Lab2.rows_of.
  rewrite length_map, length_combine, score_column_length, length_map. lia.
Qed.

Lemma lab3_rows_of_length (structures : list Lab3.Structure) :
  length (Lab3.rows_of structures) = length structures.
Proof.
  unfold Lab3.rows_of.
  rewrite length_map, length_combine, score_column_length, length_map. lia.
Qed.

Lemma Forall2_map_same {A B C : Type} (R : B -> C -> Prop)
    (f : A -> B) (g : A -> C) (l : list A) :
  (forall x, In x l -> R (f x) (g x)) -> Forall2 R (map f l) (map g l).
Proof.
  induction l as [|x l IH]; intros H; simpl; constructor.
  - apply H. now left.
  - apply IH. intros y Hy. apply H. now right.
Qed.

Lemma Forall2_map_eq {A B C : Type} (f : A -> C) (g : B -> C)
    (l : list A) (l' : list B) :
  Forall2 (fun a b => g b = f a) l l' -> map f l = map g l'.
Proof.
  induction 1 as [|a b l l' Hab _ IH]; [reflexivity|].
  cbn [map]. now rewrite Hab, IH.
Qed.

Lemma map_fst_combine {A B : Type} (l : list A) (l' : list B) :
  length l = length l' -> map fst (combine l l') = l.
Proof.
  revert l'. induction l as [|x l IH]; intros [|y l'] H; simpl;
    try reflexivity; try discriminate.
  f_equal. apply IH. now injection H.
Qed.

(** What the score column holds for a dict: its number; NaN for None when
    some dict of the list has a number; None when none has. *)
Lemma score_column_cells_of (l : list (option np.float64)) :
  Forall2 (fun o c =>
             pd.cell_of o c /\
             (o = None -> (exists o', In o' l /\ o' <> None) ->
              c = pd.CFloat np.NaN))
          l (pd.score_column l).
Proof.
  unfold pd.score_column. destruct (forallb pd.is_None l) eqn:E.
  - rewrite forallb_forall in E.
    rewrite <- (map_id l) at 1. apply Forall2_map_same.
    intros o Ho. pose proof (E o Ho) as Hn.
    destruct o as [x|]; [discriminate|]. split; [now left|].
    intros _ (o' & Ho' & Hne). specialize (E o' Ho').
    destruct o'; [discriminate|contradiction].
  - rewrite <- (map_id l) at 1. apply Forall2_map_same.
    intros [x|] _; split; simpl; auto.
    intros H. discriminate.
Qed.

Example stable_sort_examples :
  pd.stable_sort (Lab2.rows_of Examples.gen_sequences)
  = [Examples.row "g3" (pd.CFloat (np.Fin (1 / 10)));
     Examples.row "g1" (pd.CFloat (np.Fin (3 / 10)));
     Examples.row "g2" (pd.CFloat np.NaN)].
Proof.
  rewrite rows_of_examples. unfold pd.stable_sort. simpl.
  unfold pd.key_leb. simpl.
  destruct (Rle_dec (3 / 10) (1 / 10)) as [H|_]; [lra|]. reflexivity.
Qed.

(** The records of a selection, for the two labs at once: [cands] are the
    dicts, [pid], [sq], [desc] and [score] their entries, [label] the
    column the frame is sorted by.  The records are those of the first
    [k] candidates of a rearrangement of the list, one record each, in
    that order. *)
Lemma selection_records {A : Type} (pid sq desc : A -> string)
    (score : A -> option np.float64) (repr_float : np.float64 -> string)
    (label : string) (k : nat) (cands : list A) (sorted top : pd.DataFrame) :
  Selection.select_top_k k
    (map (fun gc => {| pd.prompt_id := pid (fst gc);
                       pd.sequence := sq (fst gc);
                       pd.description := desc (fst gc);
                       pd.score := snd gc |})
         (combine cands (pd.score_column (map score cands))))
    (Ok (sorted, top)) ->
  exists order,
    Permutation order cands /\
    Forall2 (fun g rec =>
               Bio.id rec = pid g /\
               Bio.seq rec = sq g /\
               (exists t, Bio.description rec
                          = (desc g ++ "," ++ label ++ "=" ++ t)%string) /\
               (forall d, score g = Some d ->
                          Bio.description rec
                          = (desc g ++ "," ++ label ++ "=" ++ repr_float d)%string) /\
               (score g = None ->
                (exists g', In g' cands /\ score g' <> None) ->
                Bio.description rec
                = (desc g ++ "," ++ label ++ "=" ++ repr_float np.NaN)%string))
            (firstn k order) (Selection.records_of repr_float label top).
Proof.
  set (cells := pd.score_column (map score cands)).
  set (mk := fun gc : A * pd.cell =>
               {| pd.prompt_id := pid (fst gc);
                  pd.sequence := sq (fst gc);
                  pd.description := desc (fst gc);
                  pd.score := snd gc |}).
  intros H.
  assert (Hne : map mk (combine cands cells) <> []).
  { intros E. rewrite E in H. apply select_top_k_empty in H. discriminate. }
  destruct (select_top_k_nonempty k _ _ Hne H) as (sorted' & Hs & E).
  assert (E1 : sorted = sorted') by congruence.
  assert (E2 : top = firstn k sorted') by congruence.
  subst sorted top. clear E.
  pose proof (sort_values_perm _ _ Hs) as Hp.
  destruct (Permutation_map_inv mk _ Hp) as (pairs & -> & Hpairs).
  assert (Hlen : length cands = length cells)
    by (unfold cells; now rewrite score_column_length, length_map).
  exists (map fst pairs). split.
  - apply Permutation_trans with (map fst (combine cands cells)).
    + apply Permutation_map. now symmetry.
    + now rewrite map_fst_combine.
  - unfold Selection.records_of.
    rewrite !firstn_map, map_map. apply Forall2_map_same.
    intros [g c] Hin. apply in_firstn in Hin.
    apply (Permutation_in (g, c) (Permutation_sym Hpairs)) in Hin.
    assert (Hcell : pd.cell_of (score g) c /\
                    (score g = None ->
                     (exists o', In o' (map score cands) /\ o' <> None) ->
                     c = pd.CFloat np.NaN)).
    { apply (combine_Forall2_In
               (fun g c => pd.cell_of (score g) c /\
                           (score g = None ->
                            (exists o', In o' (map score cands) /\ o' <> None) ->
                            c = pd.CFloat np.NaN))
               cands cells g c); [|exact Hin].
      apply (Forall2_map_left
               (fun o c => pd.cell_of o c /\
                           (o = None ->
                            (exists o', In o' (map score cands) /\ o' <> None) ->
                            c = pd.CFloat np.NaN)) score).
      apply score_column_cells_of. }
    destruct Hcell as [Hc Hnan]. cbn [fst snd mk Selection.record_of
      Bio.id Bio.seq Bio.description pd.prompt_id pd.sequence pd.description
      pd.score].
    split; [reflexivity|]. split; [reflexivity|]. split; [eexists; reflexivity|].
    split.
    + intros d Hd. rewrite Hd in Hc. cbn in Hc. subst c. reflexivity.
    + intros Hn (g' & Hg' & Hne'). rewrite Hnan; [reflexivity|exact Hn|].
      exists (score g'). split; [now apply in_map|exact Hne'].
Qed.

(** C10.  On a non-empty list of candidates the selection step has an
    outcome and raises nothing; it leaves [gen_sequences] (Lab 2) and
    [structures] (Lab 3) as they were and builds min(5, N), respectively
    min(3, N), records: one for each of the first candidates of a
    rearrangement of the stored list, in that order.  A record carries
    its candidate's identifier and residue sequence unchanged, and as
    annotation the candidate's description followed by ",distance="
    (Lab 2) or ",rmsd=" (Lab 3) and the candidate's score as the f-string
    prints it; for a candidate without a score, beside scored ones, what
    is printed is the text of NaN. *)
Theorem C10_records_annotate_description (repr_float : np.float64 -> string) :
  (forall nb,
     Lab2.gen_sequences nb <> [] ->
     (exists nb', Lab2.select_step repr_float nb (Ok nb')) /\
     (forall r,
        Lab2.select_step repr_float nb r ->
        exists nb' order,
          r = Ok nb' /\
          Lab2.gen_sequences nb' = Lab2.gen_sequences nb /\
          Permutation order (Lab2.gen_sequences nb) /\
          length (Lab2.records nb') = Nat.min 5 (length (Lab2.gen_sequences nb)) /\
          Forall2 (fun g rec =>
                     Bio.id rec = Lab2.prompt_id g /\
                     Bio.seq rec = Lab2.sequence g /\
                     (exists t, Bio.description rec
                                = (Lab2.description g ++ ",distance=" ++ t)%string) /\
                     (forall d, Lab2.distance g = Some d ->
                                Bio.description rec
                                = (Lab2.description g ++ ",distance="
                                   ++ repr_float d)%string) /\
                     (Lab2.distance g = None ->
                      (exists g', In g' (Lab2.gen_sequences nb) /\
                                  Lab2.distance g' <> None) ->
                      Bio.description rec
                      = (Lab2.description g ++ ",distance="
                         ++ repr_float np.NaN)%string))
                  (firstn 5 order) (Lab2.records nb'))) /\
  (forall nb,
     Lab3.structures nb <> [] ->
     (exists nb', Lab3.select_step repr_float nb (Ok nb')) /\
     (forall r,
        Lab3.select_step repr_float nb r ->
        exists nb' order,
          r = Ok nb' /\
          Lab3.structures nb' = Lab3.structures nb /\
          Permutation order (Lab3.structures nb) /\
          length (Lab3.records nb') = Nat.min 3 (length (Lab3.structures nb)) /\
          Forall2 (fun s rec =>
                     Bio.id rec = Lab3.prompt_id s /\
                     Bio.seq rec = Lab3.sequence s /\
                     (exists t, Bio.description rec
                                = (Lab3.description s ++ ",rmsd=" ++ t)%string) /\
                     (forall d, Lab3.rmsd s = Some d ->
                                Bio.description rec
                                = (Lab3.description s ++ ",rmsd="
                                   ++ repr_float d)%string) /\
                     (Lab3.rmsd s = None ->
                      (exists s', In s' (Lab3.structures nb) /\
                                  Lab3.rmsd s' <> None) ->
                      Bio.description rec
                      = (Lab3.description s ++ ",rmsd="
                         ++ repr_float np.NaN)%string))
                  (firstn 3 order) (Lab3.records nb'))).
Proof.
  split.
  - intros nb Hne.
    assert (Hrne : Lab2.rows_of (Lab2.gen_sequences nb) <> []).
    { intros E. apply Hne. apply (f_equal (@length pd.Row)) in E.
      rewrite lab2_rows_of_length in E. now apply length_zero_iff_nil. }
    split.
    + eexists. apply Lab2.select_step_ok. now apply select_top_k_total.
    + intros r H. inversion H as [e He | sorted top Hsel]; subst.
      * destruct (select_top_k_nonempty _ _ _ Hrne He) as (? & _ & ?).
        discriminate.
      * destruct (selection_records Lab2.prompt_id Lab2.sequence
                    Lab2.description Lab2.distance repr_float "distance" 5
                    (Lab2.gen_sequences nb) sorted top Hsel)
          as (order & Hp & Hall).
        eexists _, order. split; [reflexivity|]. cbn [Lab2.gen_sequences
          Lab2.records]. split; [reflexivity|]. split; [exact Hp|]. split.
        -- rewrite <- (Forall2_length Hall), length_firstn,
                   (Permutation_length Hp). reflexivity.
        -- exact Hall.
  - intros nb Hne.
    assert (Hrne : Lab3.rows_of (Lab3.structures nb) <> []).
    { intros E. apply Hne. apply (f_equal (@length pd.Row)) in E.
      rewrite lab3_rows_of_length in E. now apply length_zero_iff_nil. }
    split.
    + eexists. apply Lab3.select_step_ok. now apply select_top_k_total.
    + intros r H. inversion H as [e He | sorted top Hsel]; subst.
      * destruct (select_top_k_nonempty _ _ _ Hrne He) as (? & _ & ?).
        discriminate.
      * destruct (selection_records Lab3.prompt_id Lab3.sequence
                    Lab3.description Lab3.rmsd repr_float "rmsd" 3
                    (Lab3.structures nb) sorted top Hsel)
          as (order & Hp & Hall).
        eexists _, order. split; [reflexivity|]. cbn [Lab3.structures
          Lab3.records]. split; [reflexivity|]. split; [exact Hp|]. split.
        -- rewrite <- (Forall2_length Hall), length_firstn,
                   (Permutation_length Hp). reflexivity.
        -- exact Hall.
Qed.

Lemma C10_witness :
  exists nb',
    Lab2.select_step Examples.repr_float Examples.notebook (Ok nb') /\
    Lab2.gen_sequences nb' = Examples.gen_sequences /\
    Lab2.records nb'
    = [ {| Bio.seq := "MKV"; Bio.id := "g3";
           Bio.description :=
             ("g3 generated,distance="
              ++ Examples.repr_float (np.Fin (1 / 10)))%string |};
        {| Bio.seq := "MKV"; Bio.id := "g1";
           Bio.description :=
             ("g1 generated,distance="
              ++ Examples.repr_float (np.Fin (3 / 10)))%string |};
        {| Bio.seq := "MKV"; Bio.id := "g2";
           Bio.description :=
             ("g2 generated,distance="
              ++ Examples.repr_float np.NaN)%string |} ] /\
    exists order,
      Permutation order Examples.gen_sequences /\
      map Lab2.prompt_id order = map Bio.id (Lab2.records nb').
Proof.
  assert (Hne : Lab2.gen_sequences Examples.notebook <> []) by discriminate.
  assert (Hrne : Lab2.rows_of Examples.gen_sequences <> [])
    by (rewrite rows_of_examples; discriminate).
  pose proof (Lab2.select_step_ok Examples.repr_float Examples.notebook _ _
                (select_top_k_total 5 _ Hrne)) as Hstep.
  destruct (proj2 (proj1 (C10_records_annotate_description Examples.repr_float)
                     Examples.notebook Hne) _ Hstep)
    as (nb' & order & E & Hg & Hp & Hlen & Hrec).
  injection E as E. rewrite <- E in Hg, Hlen, Hrec. clear E.
  eexists. split; [exact Hstep|]. split; [exact Hg|]. split.
  - cbn [Lab2.records]. rewrite stable_sort_examples. reflexivity.
  - exists order. split; [exact Hp|].
    rewrite <- (firstn_all2 (n := 5) order)
      by (rewrite (Permutation_length Hp); simpl; lia).
    apply Forall2_map_eq.
    eapply Forall2_impl; [|exact Hrec]. intros g rec (Hid & _). exact Hid.
Defined.

(** ** Worked examples *)

Example cosine_distance_hidden_mismatch :
  Lab2.cosine_distance Examples.emb_wide Examples.emb_3 true = Raise ValueError.
Proof. reflexivity. Qed.

Example records_examples :
  Selection.records_of Examples.repr_float "distance"
    (pd.head 5 (pd.stable_sort (Lab2.rows_of Examples.gen_sequences)))
  = [ {| Bio.seq := "MKV"; Bio.id := "g3";
         Bio.description := "g3 generated,distance=0.0" |};
      {| Bio.seq := "MKV"; Bio.id := "g1";
         Bio.description := "g1 generated,distance=0.0" |};
      {| Bio.seq := "MKV"; Bio.id := "g2";
         Bio.description := "g2 generated,distance=nan" |} ].
Proof. rewrite stable_sort_examples. reflexivity. Qed.

(** Orthogonal pooled vectors are at distance 1. *)
Example cosine_distance_orthogonal :
  Lab2.cosine_distance Examples.emb_3 Examples.emb_4 true = Ok (np.Fin 1).
Proof.
  rewrite cosine_distance_flattened. cbn [Lab2.flattened].
  rewrite cosine_same_length by (rewrite !length_pooled; reflexivity).
  rewrite pooled_emb_3, pooled_emb_4, cosine_orthogonal_value. reflexivity.
Qed.

(** The scoring loop of Lab 2 stops at the first exception: the dicts
    before it are scored, the others still hold [distance = None], and
    the later cells find them so. *)
Example score_gen_sequences_stops :
  Lab2.score_gen_sequences Examples.emb_4 Examples.loaded
  = ([ {| Lab2.prompt_id := "g1";
          Lab2.sequence := "MKV";
          Lab2.description := "g1 generated";
          Lab2.embeddings := Some Examples.emb_3;
          Lab2.distance := Some (np.Fin 1);
          Lab2.distance_type := Some "cosine"%string |};
       Examples.unscored "g2" Examples.emb_wide;
       Examples.unscored "g3" Examples.emb_3 ],
     Some ValueError).
Proof.
  unfold Examples.loaded. cbn [Lab2.score_gen_sequences].
  unfold Lab2.score_gen_seq at 1. cbn [Lab2.embeddings Examples.unscored].
  rewrite cosine_distance_orthogonal. cbn [bind].
  reflexivity.
Qed.

(** The loop of Lab 3 never raises: each turn scores its dict, with a
    number or with NaN. *)
Lemma score_structure_ok svd_rotation
    (ref_structure gen_structure : biotite.AtomArray) (s : Lab3.Structure) :
  exists t p,
    Lab3.score_structure svd_rotation ref_structure gen_structure s
    = (Lab3.set_rmsd (Lab3.set_transform s t) (Lab3.rmsd_after p), Ok p).
Proof.
  unfold Lab3.score_structure.
  set (n := Nat.min (length (biotite.with_atom_name "CA" ref_structure))
                    (length (biotite.with_atom_name "CA" gen_structure))).
  set (ref_ca := firstn n (biotite.with_atom_name "CA" ref_structure)).
  set (gen_ca := firstn n (biotite.with_atom_name "CA" gen_structure)).
  assert (Hlen : length ref_ca = length gen_ca)
    by (unfold ref_ca, gen_ca; rewrite !length_firstn; lia).
  destruct (rmsd_same_length ref_ca gen_ca Hlen) as [before ->].
  destruct (superimpose_same_length svd_rotation ref_ca gen_ca Hlen)
    as (fit & t & -> & Hfit).
  destruct (rmsd_same_length ref_ca fit) as [after ->].
  { rewrite Hfit, length_apply. exact Hlen. }
  exists t, {| Lab3.min_len := n;
               Lab3.rmsd_before := before;
               Lab3.rmsd_after := after |}.
  reflexivity.
Qed.

Lemma score_structures_ok svd_rotation prediction
    (ref_structure : biotite.AtomArray) (structures : list Lab3.Structure) :
  exists structures' printed,
    Lab3.score_structures svd_rotation prediction ref_structure structures
    = (structures', Ok printed) /\
    length structures' = length structures /\
    length printed = length structures /\
    Forall (fun s => Lab3.rmsd s <> None) structures'.
Proof.
  induction structures as [|s rest IH]; cbn [Lab3.score_structures].
  - exists [], []. repeat split. constructor.
  - destruct (score_structure_ok svd_rotation ref_structure
                (prediction (Lab3.run_id s)) s) as (t & p & ->).
    destruct IH as (rest' & printed & -> & L1 & L2 & Hall).
    eexists _, _. cbn [bind]. split; [reflexivity|].
    cbn [length]. repeat split; try congruence.
    constructor; [discriminate|exact Hall].
Qed.

(** * Further properties of the two notebooks *)

(** ** [cosine_distance] (Lab 2, step 3.1) *)

Lemma np_mul_comm (a b : np.float64) : np.mul a b = np.mul b a.
Proof.
  destruct a as [x|s|], b as [y|t|]; simpl; try reflexivity.
  - f_equal. apply Rmult_comm.
  - destruct s, t; reflexivity.
Qed.

Lemma np_dot_comm (u v : list np.float64) : np.dot u v = np.dot v u.
Proof.
  revert v. induction u as [|a u IH]; intros [|b v]; simpl; try reflexivity.
  now rewrite IH, np_mul_comm.
Qed.

Lemma cosine_comm (u v : list np.float64) :
  distance.cosine u v = distance.cosine v u.
Proof.
  unfold distance.cosine. rewrite (Nat.eqb_sym (length u) (length v)).
  destruct (Nat.eqb (length v) (length u)); [|reflexivity].
  now rewrite (np_dot_comm u v), (np_mul_comm (np.dot u u) (np.dot v v)).
Qed.

(** X1.  [cosine_distance] does not depend on the order of its two
    embeddings: with or without pooling, the score, NaN included, or the
    exception is the same. *)
Theorem X1_cosine_distance_symmetric (e1 e2 : np.ndarray3) (p : bool) :
  Lab2.cosine_distance e1 e2 p = Lab2.cosine_distance e2 e1 p.
Proof. rewrite !cosine_distance_flattened. apply cosine_comm. Qed.

Lemma flat_map_ext_in {A B : Type} (f g : A -> list B) (l : list A) :
  (forall a, In a l -> f a = g a) -> flat_map f l = flat_map g l.
Proof.
  induction l as [|x l IH]; intros H; simpl; [reflexivity|].
  rewrite (H x) by now left. rewrite IH; [reflexivity|].
  intros a Ha. apply H. now right.
Qed.

(** X3.  The score does not read the first and the last position of an
    embedding: two embeddings of one shape that agree on the positions
    1 .. L-2 have the same pooled vector and the same distance to every
    embedding, on either side. *)
Theorem X3_boundary_positions_ignored (e e' : np.ndarray3) :
  np.shape0 e = np.shape0 e' ->
  np.shape1 e = np.shape1 e' ->
  np.shape2 e = np.shape2 e' ->
  (forall b i j, (b < np.shape0 e)%nat -> (0 < i < np.shape1 e - 1)%nat ->
                 (j < np.shape2 e)%nat ->
                 np.item3 e b i j = np.item3 e' b i j) ->
  Lab2.pooled e = Lab2.pooled e' /\
  forall r, Lab2.cosine_distance e r true = Lab2.cosine_distance e' r true /\
            Lab2.cosine_distance r e true = Lab2.cosine_distance r e' true.
Proof.
  intros H0 H1 H2 Hin.
  assert (P : Lab2.pooled e = Lab2.pooled e').
  { unfold Lab2.pooled, np.ravel2.
    cbn [np.nrows np.ncols np.mean_axis1 np.item2 np.shape0 np.shape2 np.slice_axis1].
    rewrite <- H0, <- H2. apply flat_map_ext_in. intros b Hb. apply in_seq in Hb.
    apply map_ext_in. intros j Hj. apply in_seq in Hj.
    destruct (slice_inner_shape e) as (_ & -> & _).
    destruct (slice_inner_shape e') as (_ & -> & _). rewrite <- H1.
    f_equal. apply map_ext_in. intros i Hi. apply in_seq in Hi.
    rewrite !slice_inner_item by lia. apply Hin; lia. }
  split; [exact P|]. intros r.
  rewrite !cosine_distance_flattened. cbn [Lab2.flattened]. now rewrite P.
Qed.

Lemma X3_witness :
  Lab2.pooled Examples.emb_3 = Lab2.pooled Examples.emb_3_bounds.
Proof.
  refine (proj1 (X3_boundary_positions_ignored Examples.emb_3 Examples.emb_3_bounds
                   eq_refl eq_refl eq_refl _)).
  intros b i j Hb Hi Hj. simpl in Hb, Hi.
  assert (b = 0%nat) by lia. assert (i = 1%nat) by lia. subst. reflexivity.
Defined.

Lemma length_flat_map_const {A B : Type} (f : A -> list B) (c : nat) (l : list A) :
  (forall a, length (f a) = c) -> length (flat_map f l) = (length l * c)%nat.
Proof.
  intros H. induction l as [|x l IH]; simpl; [reflexivity|].
  now rewrite length_app, H, IH.
Qed.

Lemma length_ravel3 (a : np.ndarray3) :
  length (np.ravel3 a) = (np.shape0 a * (np.shape1 a * np.shape2 a))%nat.
Proof.
  unfold np.ravel3.
  rewrite (length_flat_map_const _ (np.shape1 a * np.shape2 a)), length_seq;
    [reflexivity|].
  intros b. rewrite (length_flat_map_const _ (np.shape2 a)), length_seq;
    [reflexivity|].
  intros i. now rewrite length_map, length_seq.
Qed.

(** X4.  With the default [mean_pooling=False] the whole embeddings are
    flattened: two non-empty embeddings of one batch and hidden size
    raise ValueError exactly when their sequence lengths differ, while
    with pooling they always get a score. *)
Theorem X4_unpooled_lengths_must_agree (e1 e2 : np.ndarray3) :
  np.shape0 e1 = np.shape0 e2 ->
  np.shape2 e1 = np.shape2 e2 ->
  (np.shape0 e1 * np.shape2 e1)%nat <> 0%nat ->
  (Lab2.cosine_distance e1 e2 false = Raise ValueError
   <-> np.shape1 e1 <> np.shape1 e2) /\
  (np.shape1 e1 = np.shape1 e2 ->
   exists d, Lab2.cosine_distance e1 e2 false = Ok d) /\
  (exists d, Lab2.cosine_distance e1 e2 true = Ok d).
Proof.
  intros H0 H2 Hne.
  assert (Hlen : length (np.ravel3 e1) = length (np.ravel3 e2)
                 <-> np.shape1 e1 = np.shape1 e2).
  { rewrite !length_ravel3, <- H0, <- H2. split; [nia|congruence]. }
  rewrite !cosine_distance_flattened. cbn [Lab2.flattened]. split; [|split].
  - split.
    + intros E HL. apply Hlen in HL. rewrite cosine_same_length in E by exact HL.
      discriminate.
    + intros HL. apply cosine_length_mismatch. intros E. now apply Hlen in E.
  - intros HL. eexists. apply cosine_same_length. now apply Hlen.
  - eexists. apply cosine_same_length. rewrite !length_pooled. congruence.
Qed.

Lemma X4_witness :
  Lab2.cosine_distance Examples.emb_3 Examples.emb_4 false = Raise ValueError.
Proof.
  refine (proj2 (proj1 (X4_unpooled_lengths_must_agree Examples.emb_3 Examples.emb_4
                          eq_refl eq_refl _)) _); simpl; lia.
Defined.

(** ** The scoring loop of Lab 2 (step 3.1) *)

Lemma score_gen_seq_ok (ref : np.ndarray3) (g g' : Lab2.GenSeq) :
  Lab2.score_gen_seq ref g = Ok g' -> Loops.scored ref g g'.
Proof.
  unfold Lab2.score_gen_seq. destruct (Lab2.embeddings g) as [e|] eqn:E;
    [|discriminate].
  destruct (Lab2.cosine_distance e ref true) as [d|x] eqn:Ed; cbn [bind];
    [|discriminate].
  intros H. injection H as <-. unfold Loops.scored. cbn.
  repeat split; auto. exists e, d. auto.
Qed.

Lemma score_gen_seq_raise (ref : np.ndarray3) (g : Lab2.GenSeq) (x : exn) :
  Lab2.score_gen_seq ref g = Raise x ->
  (x = TypeError /\ Lab2.embeddings g = None) \/
  (x = ValueError /\
   exists e, Lab2.embeddings g = Some e /\
             (np.shape0 e * np.shape2 e <> np.shape0 ref * np.shape2 ref)%nat).
Proof.
  unfold Lab2.score_gen_seq. destruct (Lab2.embeddings g) as [e|] eqn:E.
  - destruct (Lab2.cosine_distance e ref true) as [d|y] eqn:Ed; cbn [bind];
      [discriminate|].
    intros H. injection H as <-. right.
    rewrite cosine_distance_flattened in Ed. cbn [Lab2.flattened] in Ed.
    destruct (Nat.eq_dec (length (Lab2.pooled e)) (length (Lab2.pooled ref)))
      as [L|L].
    + rewrite cosine_same_length in Ed by exact L. discriminate.
    + rewrite cosine_length_mismatch in Ed by exact L. injection Ed as <-.
      split; [reflexivity|]. exists e. split; [reflexivity|].
      now rewrite !length_pooled in L.
  - intros H. injection H as <-. now left.
Qed.

Lemma scoring_loop_scored (ref : np.ndarray3) (gen_sequences : list Lab2.GenSeq) :
  (forall g, In g gen_sequences ->
             exists e, Lab2.embeddings g = Some e /\
                       np.shape0 e = np.shape0 ref /\
                       np.shape2 e = np.shape2 ref) ->
  exists scored,
    Lab2.score_gen_sequences ref gen_sequences = (scored, None) /\
    Forall2 (Loops.scored ref) gen_sequences scored.
Proof.
  induction gen_sequences as [|g gs IH]; intros H.
  - exists []. split; [reflexivity|constructor].
  - destruct (H g (or_introl eq_refl)) as (e & He & H0 & H2).
    destruct IH as (gs' & Hgs & Hall); [intros x Hx; apply H; now right|].
    cbn [Lab2.score_gen_sequences].
    destruct (Lab2.score_gen_seq ref g) as [g'|x] eqn:Eg.
    + rewrite Hgs. exists (g' :: gs'). split; [reflexivity|].
      constructor; [now apply score_gen_seq_ok|exact Hall].
    + exfalso. apply score_gen_seq_raise in Eg.
      destruct Eg as [[_ En] | [_ (e' & He' & Hne)]]; [congruence|].
      assert (e' = e) by congruence. subst e'. apply Hne. congruence.
Qed.

(** X5.  When every candidate holds an embedding with the batch and
    hidden sizes of the reference, the loop of step 3.1 ends without an
    exception and has scored every dict: each keeps its prompt id,
    sequence, description and embedding, and holds the distance of its own
    embedding to the reference and the type 'cosine'. *)
Theorem X5_scoring_loop_scores_all (ref : np.ndarray3) (gen_sequences : list Lab2.GenSeq) :
  (forall g, In g gen_sequences ->
             exists e, Lab2.embeddings g = Some e /\
                       np.shape0 e = np.shape0 ref /\
                       np.shape2 e = np.shape2 ref) ->
  exists scored,
    Lab2.score_gen_sequences ref gen_sequences = (scored, None) /\
    Forall2 (Loops.scored ref) gen_sequences scored.
Proof. apply scoring_loop_scored. Qed.

Lemma X5_witness :
  exists scored,
    Lab2.score_gen_sequences Examples.emb_4
      [Examples.unscored "g1" Examples.emb_3; Examples.unscored "g3" Examples.emb_3]
    = (scored, None).
Proof.
  destruct (X5_scoring_loop_scores_all Examples.emb_4
              [Examples.unscored "g1" Examples.emb_3;
               Examples.unscored "g3" Examples.emb_3])
    as (scored & H & _).
  - intros g [<- | [<- | []]]; exists Examples.emb_3; repeat split.
  - exists scored. exact H.
Defined.

(** X6.  When the loop of step 3.1 ends with an exception, the dicts
    before the failing one are scored, the failing dict and all the later
    ones are exactly as they were, and the exception is TypeError for a
    dict without embedding or ValueError for an embedding whose batch
    size times hidden size is not the reference's. *)
Theorem X6_scoring_loop_stops_at_failure (ref : np.ndarray3)
    (gen_sequences after : list Lab2.GenSeq) (x : exn) :
  Lab2.score_gen_sequences ref gen_sequences = (after, Some x) ->
  exists done done' g rest,
    gen_sequences = done ++ g :: rest /\
    after = done' ++ g :: rest /\
    Forall2 (Loops.scored ref) done done' /\
    ((x = TypeError /\ Lab2.embeddings g = None) \/
     (x = ValueError /\
      exists e, Lab2.embeddings g = Some e /\
                (np.shape0 e * np.shape2 e <> np.shape0 ref * np.shape2 ref)%nat)).
Proof.
  revert after. induction gen_sequences as [|g gs IH]; intros after H.
  - discriminate.
  - cbn [Lab2.score_gen_sequences] in H.
    destruct (Lab2.score_gen_seq ref g) as [g'|y] eqn:Eg.
    + destruct (Lab2.score_gen_sequences ref gs) as [gs' r] eqn:Egs.
      injection H as <- ->.
      destruct (IH gs' eq_refl) as (done & done' & f & rest & -> & -> & Hd & Hx).
      exists (g :: done), (g' :: done'), f, rest.
      repeat split; auto. constructor; [now apply score_gen_seq_ok|exact Hd].
    + injection H as <- <-. exists [], [], g, gs.
      repeat split; [constructor|]. now apply score_gen_seq_raise.
Qed.

Lemma X6_witness :
  exists done done' g rest,
    Examples.loaded = done ++ g :: rest /\
    Forall2 (Loops.scored Examples.emb_4) done done'.
Proof.
  destruct (X6_scoring_loop_stops_at_failure Examples.emb_4 Examples.loaded _ _
              score_gen_sequences_stops)
    as (done & done' & g & rest & H1 & _ & H3 & _).
  exists done, done', g, rest. auto.
Defined.

(** ** The scoring loop of Lab 3 (step 4.3) and the structure shown in step 4.6 *)

Lemma score_structure_fitted svd_rotation
    (ref_structure gen_structure : biotite.AtomArray) (s : Lab3.Structure) :
  exists t before after,
    Lab3.score_structure svd_rotation ref_structure gen_structure s
    = (Lab3.set_rmsd (Lab3.set_transform s t) after,
       Ok {| Lab3.min_len :=
               Nat.min (length (biotite.with_atom_name "CA" ref_structure))
                       (length (biotite.with_atom_name "CA" gen_structure));
             Lab3.rmsd_before := before;
             Lab3.rmsd_after := after |}) /\
    Loops.fitted svd_rotation ref_structure gen_structure s
      (Lab3.set_rmsd (Lab3.set_transform s t) after) t after.
Proof.
  destruct (ca_atoms_lengths ref_structure gen_structure) as [Lr Lg].
  unfold Loops.fitted, Lab3.score_structure. unfold Lab3.ca_atoms in *.
  cbn [fst snd] in *.
  set (n := Nat.min (length (biotite.with_atom_name "CA" ref_structure))
                    (length (biotite.with_atom_name "CA" gen_structure))) in *.
  set (ref_ca := firstn n (biotite.with_atom_name "CA" ref_structure)) in *.
  set (gen_ca := firstn n (biotite.with_atom_name "CA" gen_structure)) in *.
  assert (Hlen : length ref_ca = length gen_ca) by congruence.
  destruct (rmsd_same_length ref_ca gen_ca Hlen) as [before Hb].
  destruct (superimpose_same_length svd_rotation ref_ca gen_ca Hlen)
    as (fit & t & Hs & Hfit).
  destruct (rmsd_same_length ref_ca fit) as [after Ha].
  { rewrite Hfit, length_apply. exact Hlen. }
  exists t, before, after. rewrite Hb, Hs, Ha. subst fit.
  repeat split; assumption.
Qed.

(** X7.  Given the structure read for every run and the rotation the
    decomposition returns, the loop of step 4.3 raises nothing.  It leaves
    every dict with its run id, prompt id, sequence and description, and
    with the transformation and the RMSD obtained by fitting the
    prediction of its own run onto the reference; the length it prints
    for a turn is the smaller of the two alpha-carbon counts, and the
    RMSD it prints last is the one it stores. *)
Theorem X7_rmsd_loop_fits_every_structure svd_rotation prediction
    (ref_structure : biotite.AtomArray) (structures : list Lab3.Structure) :
  exists structures' printed,
    Lab3.score_structures svd_rotation prediction ref_structure structures
    = (structures', Ok printed) /\
    Forall2 (fun s s' =>
               exists t after,
                 Loops.fitted svd_rotation ref_structure
                   (prediction (Lab3.run_id s)) s s' t after)
            structures structures' /\
    Forall2 (fun s p =>
               Lab3.min_len p
               = Nat.min (length (biotite.with_atom_name "CA" ref_structure))
                         (length (biotite.with_atom_name "CA"
                                    (prediction (Lab3.run_id s)))))
            structures printed /\
    Forall2 (fun s' p => Lab3.rmsd s' = Some (Lab3.rmsd_after p)) structures' printed.
Proof.
  induction structures as [|s rest IH]; cbn [Lab3.score_structures].
  - exists [], []. repeat split; constructor.
  - destruct (score_structure_fitted svd_rotation ref_structure
                (prediction (Lab3.run_id s)) s)
      as (t & before & after & -> & Hfit).
    destruct IH as (rest' & printed & -> & H1 & H2 & H3).
    eexists _, _. cbn [bind]. split; [reflexivity|].
    split; [|split].
    + constructor; [exists t, after; exact Hfit|exact H1].
    + constructor; [reflexivity|exact H2].
    + constructor; [reflexivity|exact H3].
Qed.

Lemma with_atom_name_apply (name : string) (t : biotite.AffineTransformation)
    (atoms : biotite.AtomArray) :
  biotite.with_atom_name name (biotite.apply t atoms)
  = biotite.apply t (biotite.with_atom_name name atoms).
Proof.
  unfold biotite.with_atom_name, biotite.apply.
  induction atoms as [|a atoms IH]; simpl; [reflexivity|].
  destruct (String.eqb (biotite.atom_name a) name); simpl; now rewrite IH.
Qed.

Lemma ca_atoms_apply (t : biotite.AffineTransformation)
    (ref_structure gen_structure : biotite.AtomArray) :
  Lab3.ca_atoms ref_structure (biotite.apply t gen_structure)
  = (fst (Lab3.ca_atoms ref_structure gen_structure),
     biotite.apply t (snd (Lab3.ca_atoms ref_structure gen_structure))).
Proof.
  unfold Lab3.ca_atoms. cbn [fst snd].
  rewrite with_atom_name_apply, length_apply.
  unfold biotite.apply at 1. now rewrite firstn_map.
Qed.

(** X8.  The transformation a turn of step 4.3 stores was computed on the
    truncated alpha carbons only, yet applied to the whole prediction, as
    step 4.6 does, it gives a structure with the same atoms (names and
    residue numbers in the same order) whose alpha carbons, truncated as
    in step 4.3, are the fitted alpha carbons of that turn: their RMSD to
    the reference's, with no further superposition, is the stored
    [rmsd]. *)
Theorem X8_stored_transform_fits_whole_structure svd_rotation
    (ref_structure gen_structure : biotite.AtomArray) (s : Lab3.Structure) :
  exists t after,
    Lab3.transform
      (fst (Lab3.score_structure svd_rotation ref_structure gen_structure s))
    = Some t /\
    Lab3.rmsd
      (fst (Lab3.score_structure svd_rotation ref_structure gen_structure s))
    = Some after /\
    map biotite.atom_name (biotite.apply t gen_structure)
    = map biotite.atom_name gen_structure /\
    map biotite.res_id (biotite.apply t gen_structure)
    = map biotite.res_id gen_structure /\
    biotite.superimpose svd_rotation
      (fst (Lab3.ca_atoms ref_structure gen_structure))
      (snd (Lab3.ca_atoms ref_structure gen_structure))
    = Ok (snd (Lab3.ca_atoms ref_structure (biotite.apply t gen_structure)), t) /\
    biotite.rmsd
      (fst (Lab3.ca_atoms ref_structure (biotite.apply t gen_structure)))
      (snd (Lab3.ca_atoms ref_structure (biotite.apply t gen_structure)))
    = Ok after.
Proof.
  destruct (score_structure_fitted svd_rotation ref_structure gen_structure s)
    as (t & before & after & -> & Hfit).
  destruct Hfit as (_ & _ & _ & _ & Ht & Hr & Hs & Ha).
  exists t, after. cbn [fst]. rewrite ca_atoms_apply. cbn [fst snd].
  repeat split; try assumption.
  - unfold biotite.apply. rewrite map_map. reflexivity.
  - unfold biotite.apply. rewrite map_map. reflexivity.
Qed.

(** ** The sorted frame of Lab 3 (step 4.4) and the structure shown (step 4.6) *)

Lemma score_structures_fst svd_rotation prediction
    (ref_structure : biotite.AtomArray) (structures : list Lab3.Structure) :
  fst (Lab3.score_structures svd_rotation prediction ref_structure structures)
  = map (fun s => fst (Lab3.score_structure svd_rotation ref_structure
                         (prediction (Lab3.run_id s)) s))
        structures.
Proof.
  induction structures as [|s rest IH]; [reflexivity|].
  cbn [Lab3.score_structures map].
  destruct (score_structure_fitted svd_rotation ref_structure
              (prediction (Lab3.run_id s)) s) as (t & before & after & E & _).
  rewrite E. cbn [fst].
  destruct (Lab3.score_structures svd_rotation prediction ref_structure rest)
    as [rest' r]. cbn [fst] in *. now rewrite IH.
Qed.

Lemma score_column_all_some (l : list (option np.float64)) :
  Forall (fun o => o <> None) l ->
  pd.score_column l
  = map (fun o => match o with
                  | Some x => pd.CFloat x
                  | None => pd.CFloat np.NaN
                  end) l.
Proof.
  intros H. unfold pd.score_column.
  destruct H as [|o l Ho Hl]; [reflexivity|].
  destruct o as [x|]; [reflexivity|contradiction].
Qed.

Lemma combine_map_self {A B C : Type} (f : A -> B) (g : A -> C) (l : list A) :
  combine (map f l) (map g l) = map (fun x => (f x, g x)) l.
Proof. induction l as [|x l IH]; simpl; [reflexivity|]. now rewrite IH. Qed.

Lemma top_sorted_columns (s : list Top.FrameRow) :
  Sorted Top.key_le s -> Sorted pd.key_le (map Top.columns s).
Proof.
  induction 1 as [|x l Hl IH Hd]; simpl; constructor; [assumption|].
  destruct Hd; simpl; constructor. assumption.
Qed.

(** Sorting whole rows and then reading the columns of step 4.5 is
    sorting the rows of those columns. *)
Lemma top_sort_values_columns (df out : list Top.FrameRow) :
  Top.sort_values df out ->
  pd.sort_values (map Top.columns df) (map Top.columns out).
Proof.
  intros [s Hp Hs]. rewrite map_app.
  replace (map Top.columns (filter Top.isna df))
    with (filter pd.row_isna (map Top.columns df))
    by (rewrite filter_map_swap; reflexivity).
  constructor.
  - rewrite filter_map_swap. apply Permutation_map. exact Hp.
  - apply top_sorted_columns. exact Hs.
Qed.

Lemma top_sort_values_perm (df out : list Top.FrameRow) :
  Top.sort_values df out -> Permutation out df.
Proof.
  intros [s Hp Hs]. rewrite Hp.
  rewrite (filter_ext Top.isna (fun x => negb (Top.notna x))).
  - apply filter_split_perm.
  - intros r. unfold Top.isna, Top.notna. now rewrite negb_involutive.
Qed.

(** Rows that all carry a key can be arranged in ascending key order. *)
Lemma top_sorted_arrangement (l : list Top.FrameRow) :
  Forall (fun r => Top.notna r = true) l ->
  exists s, Permutation s l /\ Sorted Top.key_le s.
Proof.
  induction 1 as [|r l Hr Hl (s & Hp & Hs)].
  - exists []. split; constructor.
  - assert (Hall : Forall (fun x => Top.notna x = true) s)
      by (eapply Permutation_Forall; [symmetry; exact Hp|exact Hl]).
    assert (Hins : exists s', Permutation s' (r :: s) /\ Sorted Top.key_le s' /\
                              forall x, Top.key_le x r -> HdRel Top.key_le x s ->
                                        HdRel Top.key_le x s').
    { clear Hp Hl l. induction s as [|y s IH].
      - exists [r]. split; [reflexivity|]. split.
        + constructor; constructor.
        + intros x Hx _. constructor. exact Hx.
      - inversion Hs as [|? ? Hs' Hd]; subst.
        inversion Hall as [|? ? Hy Hall']; subst.
        destruct (key_le_total (Top.columns r) (Top.columns y) Hr Hy) as [H|H].
        + exists (r :: y :: s). split; [reflexivity|]. split.
          * constructor; [assumption|]. constructor. exact H.
          * intros x Hx _. constructor. exact Hx.
        + destruct (IH Hs' Hall') as (s' & Hp' & Hs'' & Hhd).
          exists (y :: s'). split; [|split].
          * rewrite Hp'. apply perm_swap.
          * constructor; [assumption|]. apply Hhd; assumption.
          * intros x _ Hx. inversion Hx; subst. constructor. assumption. }
    destruct Hins as (s' & Hp' & Hs' & _).
    exists s'. split; [|assumption].
    rewrite Hp'. now constructor.
Qed.

Lemma top_sort_values_total (df : list Top.FrameRow) :
  exists out, Top.sort_values df out.
Proof.
  destruct (top_sorted_arrangement (filter Top.notna df)) as (s & Hp & Hs).
  - apply filter_all.
  - eexists. econstructor; eassumption.
Qed.

(** X9.  Steps 4.3, 4.4 and 4.6 in sequence, on a non-empty list of
    structures, given the structure read for every run and the rotation
    the decomposition returns.  The sorted frame exists and nothing is
    raised.  Whatever
    arrangement [sort_values] returns, step 4.6 shows the prediction of
    one of the structures of the list, moved by the transformation that
    its own turn of step 4.3 stored, and the RMSD stored for that
    structure is the lowest: the RMSD stored for any structure of the
    list is NaN or at least as large. *)
Theorem X9_shown_structure_has_lowest_rmsd svd_rotation prediction
    (ref_structure : biotite.AtomArray) (structures : list Lab3.Structure) :
  structures <> [] ->
  (exists df,
     Top.sorted_frame
       (fst (Lab3.score_structures svd_rotation prediction ref_structure structures))
       (Ok df)) /\
  (forall r,
     Top.sorted_frame
       (fst (Lab3.score_structures svd_rotation prediction ref_structure structures))
       r ->
     exists df s t after,
       r = Ok df /\
       In s structures /\
       Lab3.transform
         (fst (Lab3.score_structure svd_rotation ref_structure
                 (prediction (Lab3.run_id s)) s)) = Some t /\
       Lab3.rmsd
         (fst (Lab3.score_structure svd_rotation ref_structure
                 (prediction (Lab3.run_id s)) s)) = Some after /\
       Top.superimpose_top prediction df
       = Top.Shown (biotite.apply t (prediction (Lab3.run_id s))) /\
       forall s2, In s2 structures ->
         exists after2,
           Lab3.rmsd
             (fst (Lab3.score_structure svd_rotation ref_structure
                     (prediction (Lab3.run_id s2)) s2)) = Some after2 /\
           (np.isnan after2 = true \/ pd.float_le after after2)).
Proof.
  intros Hne. rewrite score_structures_fst.
  set (turn := fun s => fst (Lab3.score_structure svd_rotation ref_structure
                               (prediction (Lab3.run_id s)) s)).
  assert (Hturn : forall s, exists t after,
             Lab3.run_id (turn s) = Lab3.run_id s /\
             Lab3.transform (turn s) = Some t /\
             Lab3.rmsd (turn s) = Some after).
  { intros s. unfold turn.
    destruct (score_structure_fitted svd_rotation ref_structure
                (prediction (Lab3.run_id s)) s) as (t & before & after & -> & _).
    exists t, after. repeat split. }
  assert (Hne' : map turn structures <> []).
  { destruct structures; [contradiction|discriminate]. }
  assert (Hrows : Top.frame_rows (map turn structures)
                  = map (fun s =>
                           {| Top.prompt_id := Lab3.prompt_id (turn s);
                              Top.run_id := Lab3.run_id (turn s);
                              Top.sequence := Lab3.sequence (turn s);
                              Top.description := Lab3.description (turn s);
                              Top.transform := Lab3.transform (turn s);
                              Top.rmsd :=
                                match Lab3.rmsd (turn s) with
                                | Some x => pd.CFloat x
                                | None => pd.CFloat np.NaN
                                end |}) structures).
  { unfold Top.frame_rows. rewrite score_column_all_some.
    - rewrite !(map_map turn), (map_map (fun s => Lab3.rmsd (turn s))).
      rewrite combine_map_self, map_map. reflexivity.
    - rewrite map_map. apply Forall_forall. intros o Ho.
      apply in_map_iff in Ho. destruct Ho as (s & <- & _).
      destruct (Hturn s) as (t & after & _ & _ & ->). discriminate. }
  split.
  - destruct (top_sort_values_total (Top.frame_rows (map turn structures)))
      as (out & Hout).
    exists out. now constructor.
  - intros r Hr. inversion Hr as [E | df _ Hs]; [contradiction|]. subst r.
    pose proof (top_sort_values_perm _ _ Hs) as Hp.
    pose proof (sort_values_ascending _ _ (top_sort_values_columns _ _ Hs)) as Ha.
    rewrite Hrows in Hp.
    destruct df as [|top rest].
    { apply Permutation_nil in Hp.
      destruct structures; [contradiction|discriminate]. }
    assert (Htop : In top (top :: rest)) by now left.
    apply (Permutation_in top Hp) in Htop. apply in_map_iff in Htop.
    destruct Htop as (s & Es & Hs_in).
    destruct (Hturn s) as (t & after & Hrun & Ht & Ha').
    exists (top :: rest), s, t, after.
    split; [reflexivity|]. split; [assumption|].
    split; [assumption|]. split; [assumption|]. split.
    + unfold Top.superimpose_top. rewrite <- Es. cbn [Top.run_id Top.transform].
      rewrite Ht, Hrun. reflexivity.
    + intros s2 Hs2. destruct (Hturn s2) as (t2 & after2 & _ & _ & Ha2).
      exists after2. split; [assumption|].
      set (row2 := {| Top.prompt_id := Lab3.prompt_id (turn s2);
                      Top.run_id := Lab3.run_id (turn s2);
                      Top.sequence := Lab3.sequence (turn s2);
                      Top.description := Lab3.description (turn s2);
                      Top.transform := Lab3.transform (turn s2);
                      Top.rmsd := pd.CFloat after2 |}).
      assert (Hin : In row2 (top :: rest)).
      { apply (Permutation_in row2 (Permutation_sym Hp)). apply in_map_iff.
        exists s2. split; [|assumption]. unfold row2. now rewrite Ha2. }
      assert (Hasc : np.isnan after2 = true \/
                     Selection.ascending (Top.columns top) (Top.columns row2)).
      { destruct Hin as [Etop | Hin].
        - destruct (np.isnan after2) eqn:N; [left; reflexivity|right; right].
          rewrite Etop. unfold pd.key_le, row2. cbn.
          now apply float_le_refl.
        - right. cbn [map] in Ha. inversion Ha as [|? ? _ Hall]; subst.
          rewrite Forall_forall in Hall. apply Hall. now apply in_map. }
      destruct Hasc as [N | [N | Hk]]; [left; exact N| |].
      * left. unfold pd.row_isna in N. cbn in N.
        destruct after2 as [x|b|]; [discriminate|discriminate|reflexivity].
      * right. unfold pd.key_le in Hk. rewrite <- Es in Hk. cbn in Hk.
        rewrite Ha' in Hk. exact Hk.
Qed.

Lemma X9_witness :
  exists df,
    Top.sorted_frame
      (fst (Lab3.score_structures Examples.no_rotation
              (fun _ => Examples.gen_structure) Examples.ref_structure
              [Examples.structure_1]))
      (Ok df).
Proof.
  refine (proj1 (X9_shown_structure_has_lowest_rmsd Examples.no_rotation
                   (fun _ => Examples.gen_structure) Examples.ref_structure
                   [Examples.structure_1] _)).
  discriminate.
Defined.

(** ** When the selection has one outcome only *)

Lemma float_le_antisym (a b : np.float64) :
  pd.float_le a b -> pd.float_le b a -> a = b.
Proof.
  destruct a as [x|[|]|], b as [y|[|]|]; simpl; try tauto.
  intros H1 H2. f_equal. lra.
Qed.

Lemma key_le_antisym (r1 r2 : pd.Row) :
  pd.key_le r1 r2 -> pd.key_le r2 r1 -> pd.score r1 = pd.score r2.
Proof.
  unfold pd.key_le. destruct (pd.score r1), (pd.score r2); try tauto.
  intros H1 H2. f_equal. now apply float_le_antisym.
Qed.

Lemma NoDup_map_In {A B : Type} (f : A -> B) (l : list A) (a b : A) :
  NoDup (map f l) -> In a l -> In b l -> f a = f b -> a = b.
Proof.
  induction l as [|x l IH]; simpl; [contradiction|].
  intros Hnd Ha Hb E. inversion Hnd as [|? ? Hx Hnd']; subst.
  destruct Ha as [<- | Ha], Hb as [<- | Hb]; auto.
  - exfalso. apply Hx. rewrite E. now apply in_map.
  - exfalso. apply Hx. rewrite <- E. now apply in_map.
Qed.

(** Rows of pairwise distinct keys have one ascending arrangement. *)
Lemma sorted_arrangement_unique (s1 s2 : list pd.Row) :
  NoDup (map pd.score s1) ->
  StronglySorted pd.key_le s1 -> StronglySorted pd.key_le s2 ->
  Permutation s1 s2 -> s1 = s2.
Proof.
  revert s2. induction s1 as [|a s1 IH]; intros s2 Hnd H1 H2 Hp.
  - apply Permutation_nil in Hp. now subst.
  - destruct s2 as [|b s2].
    { symmetry in Hp. apply Permutation_nil in Hp. discriminate. }
    inversion H1 as [|? ? H1' Ha]; subst. inversion H2 as [|? ? H2' Hb]; subst.
    rewrite Forall_forall in Ha, Hb.
    assert (Eab : a = b).
    { assert (Hb_in : In b (a :: s1))
        by (apply (Permutation_in b (Permutation_sym Hp)); now left).
      assert (Ha_in : In a (b :: s2))
        by (apply (Permutation_in a Hp); now left).
      destruct Hb_in as [E | Hb_in]; [assumption|].
      destruct Ha_in as [E | Ha_in]; [now symmetry|].
      apply (NoDup_map_In pd.score (a :: s1)); [assumption|now left|now right|].
      apply key_le_antisym; auto. }
    subst b. f_equal. apply IH.
    + now inversion Hnd.
    + assumption.
    + assumption.
    + eapply Permutation_cons_inv. exact Hp.
Qed.

Lemma sort_values_unique (df out1 out2 : pd.DataFrame) :
  NoDup (map pd.score (filter pd.row_notna df)) ->
  pd.sort_values df out1 -> pd.sort_values df out2 -> out1 = out2.
Proof.
  intros Hnd [s1 Hp1 Hs1] [s2 Hp2 Hs2]. f_equal.
  apply sorted_arrangement_unique.
  - eapply Permutation_NoDup; [|exact Hnd].
    apply Permutation_map. now symmetry.
  - apply Sorted_StronglySorted; [|assumption]. intros x y z. apply key_le_trans.
  - apply Sorted_StronglySorted; [|assumption]. intros x y z. apply key_le_trans.
  - rewrite Hp1. now symmetry.
Qed.

(** X10.  When no two scored candidates carry the same score, the
    selection of steps 3.2-3.3 (Lab 2) and 4.4-4.5 (Lab 3) has exactly one
    outcome on a non-empty frame, whatever sort [sort_values] runs: the
    frame in ascending score order with the unscored candidates last in
    input order, and its first [k] rows. *)
Theorem X10_distinct_scores_fix_the_selection (k : nat) (rows : list pd.Row) :
  rows <> [] ->
  NoDup (map pd.score (filter pd.row_notna rows)) ->
  forall r,
    Selection.select_top_k k rows r
    <-> r = Ok (pd.stable_sort rows, pd.head k (pd.stable_sort rows)).
Proof.
  intros Hne Hnd r. split.
  - intros H.
    destruct (select_top_k_nonempty k rows r Hne H) as (sorted & Hs & ->).
    rewrite (sort_values_unique rows sorted (pd.stable_sort rows) Hnd Hs
               (sort_values_stable_sort rows)).
    reflexivity.
  - intros ->. now apply select_top_k_total.
Qed.

Lemma X10_witness :
  Selection.select_top_k 5 (Lab2.rows_of Examples.gen_sequences)
    (Ok (pd.stable_sort (Lab2.rows_of Examples.gen_sequences),
         pd.head 5 (pd.stable_sort (Lab2.rows_of Examples.gen_sequences)))).
Proof.
  refine (proj2 (X10_distinct_scores_fix_the_selection 5
                   (Lab2.rows_of Examples.gen_sequences) _ _ _) eq_refl).
  - discriminate.
  - cbn. constructor.
    + intros [E | []]. injection E as E. lra.
    + constructor; [intros []|constructor].
Defined.

(** ** Selection before scoring *)

Lemma score_column_all_none (l : list (option np.float64)) :
  Forall (fun o => o = None) l ->
  pd.score_column l = map (fun _ => pd.CNone) l.
Proof.
  intros H. unfold pd.score_column.
  replace (forallb pd.is_None l) with true; [reflexivity|].
  symmetry. apply forallb_forall. rewrite Forall_forall in H.
  intros o Ho. now rewrite (H o Ho).
Qed.

Lemma filter_none_all {A : Type} (f : A -> bool) (l : list A) :
  Forall (fun x => f x = false) l -> filter f l = [].
Proof.
  induction 1 as [|x l Hx Hl IH]; simpl; [reflexivity|]. now rewrite Hx.
Qed.

Lemma filter_every {A : Type} (f : A -> bool) (l : list A) :
  Forall (fun x => f x = true) l -> filter f l = l.
Proof.
  induction 1 as [|x l Hx Hl IH]; simpl; [reflexivity|]. now rewrite Hx, IH.
Qed.

Lemma isna_not_notna (r : pd.Row) :
  pd.row_isna r = true -> pd.row_notna r = false.
Proof. rewrite row_isna_notna. now destruct (pd.row_notna r). Qed.

(** A frame without any score is sorted into itself. *)
Lemma sort_values_all_na (df out : pd.DataFrame) :
  Forall (fun r => pd.row_isna r = true) df ->
  pd.sort_values df out -> out = df.
Proof.
  intros Hall [s Hp Hs].
  rewrite filter_none_all in Hp.
  - symmetry in Hp. apply Permutation_nil in Hp. subst s. simpl.
    now apply filter_every.
  - eapply Forall_impl; [|exact Hall]. apply isna_not_notna.
Qed.

(** X11.  Steps 3.2-3.3 of Lab 2 run on candidates whose [distance] is
    still None, as step 2.1 leaves them: nothing is raised, and in the
    one outcome the frame keeps the input order and the records are those
    of the first five candidates in input order, each with its
    candidate's identifier and sequence and with its description
    followed by ",distance=" and the text printed for the missing
    score. *)
Theorem X11_selection_before_scoring (repr_float : np.float64 -> string)
    (nb : Lab2.Notebook) :
  Lab2.gen_sequences nb <> [] ->
  Forall (fun g => Lab2.distance g = None) (Lab2.gen_sequences nb) ->
  (exists nb', Lab2.select_step repr_float nb (Ok nb')) /\
  (forall r,
     Lab2.select_step repr_float nb r ->
     exists nb',
       r = Ok nb' /\
       Lab2.gen_sequences nb' = Lab2.gen_sequences nb /\
       map pd.prompt_id (Lab2.df nb')
       = map Lab2.prompt_id (Lab2.gen_sequences nb) /\
       Forall (fun row => pd.row_isna row = true) (Lab2.df nb') /\
       Forall2 (fun g rec =>
                  Bio.id rec = Lab2.prompt_id g /\
                  Bio.seq rec = Lab2.sequence g /\
                  exists t, Bio.description rec
                            = (Lab2.description g ++ ",distance=" ++ t)%string)
               (firstn 5 (Lab2.gen_sequences nb)) (Lab2.records nb')).
Proof.
  intros Hne Hall.
  set (mk := fun g => {| pd.prompt_id := Lab2.prompt_id g;
                         pd.sequence := Lab2.sequence g;
                         pd.description := Lab2.description g;
                         pd.score := pd.CNone |}).
  assert (Hrows : Lab2.rows_of (Lab2.gen_sequences nb)
                  = map mk (Lab2.gen_sequences nb)).
  { unfold Lab2.rows_of. rewrite score_column_all_none.
    - rewrite map_map, <- (map_id (Lab2.gen_sequences nb)) at 1.
      rewrite combine_map_self, map_map. reflexivity.
    - rewrite Forall_forall in *. intros o Ho. apply in_map_iff in Ho.
      destruct Ho as (g & <- & Hg). now apply Hall. }
  assert (Hna : Forall (fun r => pd.row_isna r = true)
                       (map mk (Lab2.gen_sequences nb))).
  { apply Forall_forall. intros x Hx. apply in_map_iff in Hx.
    destruct Hx as (g & <- & _). reflexivity. }
  assert (Hrne : Lab2.rows_of (Lab2.gen_sequences nb) <> []).
  { rewrite Hrows. destruct (Lab2.gen_sequences nb); [contradiction|discriminate]. }
  split.
  - eexists. apply Lab2.select_step_ok. now apply select_top_k_total.
  - intros r H. inversion H as [e He | sorted top Hsel]; subst.
    + destruct (select_top_k_nonempty _ _ _ Hrne He) as (? & _ & ?). discriminate.
    + destruct (select_top_k_nonempty _ _ _ Hrne Hsel) as (sorted' & Hs & E).
      assert (E1 : sorted = sorted') by congruence.
      assert (E2 : top = firstn 5 sorted') by congruence.
      subst sorted top. clear E.
      rewrite Hrows in Hs.
      rewrite (sort_values_all_na _ sorted' Hna Hs).
      eexists. split; [reflexivity|].
      cbn [Lab2.gen_sequences Lab2.df Lab2.records].
      split; [reflexivity|]. split; [now rewrite map_map|].
      split; [exact Hna|].
      unfold Selection.records_of. rewrite firstn_map, map_map.
      rewrite <- (map_id (firstn 5 (Lab2.gen_sequences nb))) at 1.
      apply Forall2_map_same. intros g _.
      split; [reflexivity|]. split; [reflexivity|].
      eexists. reflexivity.
Qed.

Lemma X11_witness :
  exists nb',
    Lab2.select_step Examples.repr_float
      {| Lab2.gen_sequences := [Examples.gen_seq "g1" None;
                                Examples.gen_seq "g2" None];
         Lab2.df := []; Lab2.records := [] |}
      (Ok nb') /\
    map pd.prompt_id (Lab2.df nb') = ["g1"; "g2"]%string /\
    map Bio.id (Lab2.records nb') = ["g1"; "g2"]%string.
Proof.
  destruct (X11_selection_before_scoring Examples.repr_float
              {| Lab2.gen_sequences := [Examples.gen_seq "g1" None;
                                        Examples.gen_seq "g2" None];
                 Lab2.df := []; Lab2.records := [] |})
    as [[nb' Hstep] Hall].
  - discriminate.
  - repeat constructor.
  - destruct (Hall _ Hstep) as (nb'' & E & _ & Hdf & _ & Hrec).
    injection E as E. rewrite <- E in Hdf, Hrec. clear E.
    exists nb'. split; [exact Hstep|]. split; [exact Hdf|].
    symmetry.
    apply (Forall2_map_eq Lab2.prompt_id Bio.id
             [Examples.gen_seq "g1" None; Examples.gen_seq "g2" None]).
    eapply Forall2_impl; [|exact Hrec]. intros g rec (Hid & _). exact Hid.
Defined.

(** ** Residues beyond the shorter chain *)

Lemma with_atom_name_app (name : string) (l1 l2 : biotite.AtomArray) :
  biotite.with_atom_name name (l1 ++ l2)
  = biotite.with_atom_name name l1 ++ biotite.with_atom_name name l2.
Proof. unfold biotite.with_atom_name. apply filter_app. Qed.

(** X12.  The turn of step 4.3 reads the alpha carbons up to the length of
    the shorter chain only.  When the prediction has at least as many
    alpha carbons as the reference, atoms appended to the prediction
    change nothing of what the turn stores and prints; and likewise for
    atoms appended to the reference when the reference is the longer
    one. *)
Theorem X12_atoms_beyond_shorter_chain_ignored svd_rotation
    (ref_structure gen_structure more : biotite.AtomArray) (s : Lab3.Structure) :
  ((length (biotite.with_atom_name "CA" ref_structure)
    <= length (biotite.with_atom_name "CA" gen_structure))%nat ->
   Lab3.score_structure svd_rotation ref_structure (gen_structure ++ more) s
   = Lab3.score_structure svd_rotation ref_structure gen_structure s) /\
  ((length (biotite.with_atom_name "CA" gen_structure)
    <= length (biotite.with_atom_name "CA" ref_structure))%nat ->
   Lab3.score_structure svd_rotation (ref_structure ++ more) gen_structure s
   = Lab3.score_structure svd_rotation ref_structure gen_structure s).
Proof.
  split; intros Hle; unfold Lab3.score_structure;
    rewrite with_atom_name_app, length_app.
  - rewrite !(Nat.min_l (length (biotite.with_atom_name "CA" ref_structure)))
      by lia.
    rewrite firstn_app.
    replace (length (biotite.with_atom_name "CA" ref_structure)
             - length (biotite.with_atom_name "CA" gen_structure))%nat
      with 0%nat by lia.
    rewrite firstn_0, app_nil_r. reflexivity.
  - rewrite !(Nat.min_r _ (length (biotite.with_atom_name "CA" gen_structure)))
      by lia.
    rewrite firstn_app.
    replace (length (biotite.with_atom_name "CA" gen_structure)
             - length (biotite.with_atom_name "CA" ref_structure))%nat
      with 0%nat by lia.
    rewrite firstn_0, app_nil_r. reflexivity.
Qed.

Lemma X12_witness :
  Lab3.score_structure Examples.no_rotation Examples.gen_structure
    (Examples.gen_structure ++ Examples.ref_structure) Examples.structure_1
  = Lab3.score_structure Examples.no_rotation Examples.gen_structure
      Examples.gen_structure Examples.structure_1.
Proof.
  refine (proj1 (X12_atoms_beyond_shorter_chain_ignored Examples.no_rotation
                   Examples.gen_structure Examples.gen_structure
                   Examples.ref_structure Examples.structure_1) _).
  simpl. lia.
Defined.

(** ** Lab 2 from scoring to the records (steps 3.1 to 3.3) *)

Lemma Forall2_In_r {A B : Type} (R : A -> B -> Prop) (l : list A) (l' : list B)
    (y : B) :
  Forall2 R l l' -> In y l' -> exists x, In x l /\ R x y.
Proof.
  induction 1 as [|a b l l' Hab Hl IH]; simpl; [contradiction|].
  intros [<- | Hy].
  - exists a. auto.
  - destruct (IH Hy) as (x & Hx & Hr). exists x. auto.
Qed.

(** X14.  Steps 3.1, 3.2 and 3.3 of Lab 2 in sequence, on a non-empty list
    of candidates that each hold an embedding with the batch and hidden
    sizes of the reference: the selection raises nothing and writes
    min(5, N) records, and each record carries the prompt id and the
    sequence of a candidate of the list and, after its description, the
    cosine distance of that candidate's own embedding to the reference. *)
Theorem X14_scored_candidates_are_written (repr_float : np.float64 -> string)
    (ref : np.ndarray3) (gen_sequences : list Lab2.GenSeq)
    (df0 : pd.DataFrame) (records0 : list Bio.SeqRecord) :
  gen_sequences <> [] ->
  (forall g, In g gen_sequences ->
             exists e, Lab2.embeddings g = Some e /\
                       np.shape0 e = np.shape0 ref /\
                       np.shape2 e = np.shape2 ref) ->
  (exists nb',
     Lab2.select_step repr_float
       {| Lab2.gen_sequences := fst (Lab2.score_gen_sequences ref gen_sequences);
          Lab2.df := df0; Lab2.records := records0 |}
       (Ok nb')) /\
  (forall r,
     Lab2.select_step repr_float
       {| Lab2.gen_sequences := fst (Lab2.score_gen_sequences ref gen_sequences);
          Lab2.df := df0; Lab2.records := records0 |}
       r ->
     exists nb',
       r = Ok nb' /\
       length (Lab2.records nb') = Nat.min 5 (length gen_sequences) /\
       Forall (fun rec =>
                 exists g e d,
                   In g gen_sequences /\
                   Lab2.embeddings g = Some e /\
                   Lab2.cosine_distance e ref true = Ok d /\
                   Bio.id rec = Lab2.prompt_id g /\
                   Bio.seq rec = Lab2.sequence g /\
                   Bio.description rec
                   = (Lab2.description g ++ ",distance=" ++ repr_float d)%string)
              (Lab2.records nb')).
Proof.
  intros Hne Hemb.
  destruct (scoring_loop_scored ref gen_sequences Hemb) as (scored & -> & Hall).
  cbn [fst].
  assert (Hlen : length scored = length gen_sequences)
    by (symmetry; eapply Forall2_length; exact Hall).
  assert (Hrne : Lab2.rows_of scored <> []).
  { intros E. apply (f_equal (@length pd.Row)) in E.
    rewrite lab2_rows_of_length, Hlen in E. apply Hne.
    now apply length_zero_iff_nil. }
  split.
  - eexists. apply Lab2.select_step_ok. cbn.
    apply select_top_k_total. exact Hrne.
  - intros r H. inversion H as [e He | sorted top Hsel]; subst; cbn in *.
    + destruct (select_top_k_nonempty _ _ _ Hrne He) as (? & _ & ?). discriminate.
    + eexists. split; [reflexivity|]. cbn.
      destruct (select_top_k_nonempty _ _ _ Hrne Hsel) as (sorted' & Hs & E).
      assert (E1 : sorted = sorted') by congruence.
      assert (E2 : top = firstn 5 sorted') by congruence.
      subst sorted top.
      pose proof (sort_values_perm _ _ Hs) as Hp.
      split.
      * unfold Selection.records_of.
        rewrite length_map, length_firstn, (Permutation_length Hp),
                lab2_rows_of_length, Hlen.
        reflexivity.
      * apply Forall_forall. intros rec Hrec.
        unfold Selection.records_of in Hrec. apply in_map_iff in Hrec.
        destruct Hrec as (row & <- & Hrow).
        apply in_firstn in Hrow. apply (Permutation_in row Hp) in Hrow.
        destruct (lab2_rows_of_In _ _ Hrow)
          as (g' & Hg' & Hid & Hseq & Hdesc & Hc).
        destruct (Forall2_In_r _ _ _ _ Hall Hg') as (g & Hg & Hsc).
        destruct Hsc as (Ep & Es & Ed & Ee & _ & e & d & He & Hd & Hdist).
        exists g, e, d. rewrite Hdist in Hc. cbn in Hc.
        cbn. rewrite Hid, Hseq, Hdesc, Hc, Ep, Es, Ed. cbn.
        repeat split; assumption.
Qed.

Lemma X14_witness :
  exists nb',
    Lab2.select_step Examples.repr_float
      {| Lab2.gen_sequences :=
           fst (Lab2.score_gen_sequences Examples.emb_4
                  [Examples.unscored "g1" Examples.emb_3;
                   Examples.unscored "g3" Examples.emb_3]);
         Lab2.df := []; Lab2.records := [] |}
      (Ok nb').
Proof.
  refine (proj1 (X14_scored_candidates_are_written Examples.repr_float
                   Examples.emb_4
                   [Examples.unscored "g1" Examples.emb_3;
                    Examples.unscored "g3" Examples.emb_3] [] [] _ _)).
  - discriminate.
  - intros g [<- | [<- | []]]; exists Examples.emb_3; repeat split.
Defined.
